(** * Pinazu flow runtime: a shallow embedding of [pinazu/runtime.py] and
    [pinazu/decorators.py]

    The development follows the Python sources:
    - [Hashlib], [Orjson]: the two library calls that cache-key derivation
      is built from ([hashlib.md5(..).hexdigest()] and
      [orjson.dumps(.., default=str, option=OPT_SORT_KEYS)]);
    - [CacheManager], [InMemoryCacheManager], [LogManager] and [FlowRunner]:
      the classes of [runtime.py], one module each;
    - [Decorators]: the [task] wrapper's search for a flow context.

    Python values are an inductive type, a UUID is the string [__str__]
    returns, exceptions are values, and every method is a function in a small
    state-and-exception monad over the runner and the world it acts on.  What
    the bucket, the NATS server and the logger may raise is a parameter
    ([Faults]).  Time stamps, logger output and [print] are left out of the
    state; tasks are awaited one after the other. *)

From Stdlib Require Import ZArith String Ascii List Lia Bool Permutation.
From Stdlib Require Import DecimalString OrderedTypeEx.
From stdpp Require Import gmap strings.

Import ListNotations.
Local Open Scope string_scope.

(* ===================================================================== *)
(** ** hashlib.md5 *)
(* ===================================================================== *)

Module Hashlib.

Local Open Scope Z_scope.

Definition mask32 : Z := 0xffffffff.
Definition add32 (a b : Z) : Z := Z.land (a + b) mask32.
Definition not32 (a : Z) : Z := Z.lxor a mask32.
Definition rotl32 (x c : Z) : Z :=
  Z.lor (Z.land (Z.shiftl x c) mask32) (Z.shiftr x (32 - c)).

Definition md5_K : list Z :=
  [ 0xd76aa478; 0xe8c7b756; 0x242070db; 0xc1bdceee; 0xf57c0faf; 0x4787c62a;
    0xa8304613; 0xfd469501; 0x698098d8; 0x8b44f7af; 0xffff5bb1; 0x895cd7be;
    0x6b901122; 0xfd987193; 0xa679438e; 0x49b40821; 0xf61e2562; 0xc040b340;
    0x265e5a51; 0xe9b6c7aa; 0xd62f105d; 0x02441453; 0xd8a1e681; 0xe7d3fbc8;
    0x21e1cde6; 0xc33707d6; 0xf4d50d87; 0x455a14ed; 0xa9e3e905; 0xfcefa3f8;
    0x676f02d9; 0x8d2a4c8a; 0xfffa3942; 0x8771f681; 0x6d9d6122; 0xfde5380c;
    0xa4beea44; 0x4bdecfa9; 0xf6bb4b60; 0xbebfbc70; 0x289b7ec6; 0xeaa127fa;
    0xd4ef3085; 0x04881d05; 0xd9d4d039; 0xe6db99e5; 0x1fa27cf8; 0xc4ac5665;
    0xf4292244; 0x432aff97; 0xab9423a7; 0xfc93a039; 0x655b59c3; 0x8f0ccc92;
    0xffeff47d; 0x85845dd1; 0x6fa87e4f; 0xfe2ce6e0; 0xa3014314; 0x4e0811a1;
    0xf7537e82; 0xbd3af235; 0x2ad7d2bb; 0xeb86d391 ].

Definition md5_S : list Z :=
  [ 7; 12; 17; 22; 7; 12; 17; 22; 7; 12; 17; 22; 7; 12; 17; 22;
    5; 9; 14; 20; 5; 9; 14; 20; 5; 9; 14; 20; 5; 9; 14; 20;
    4; 11; 16; 23; 4; 11; 16; 23; 4; 11; 16; 23; 4; 11; 16; 23;
    6; 10; 15; 21; 6; 10; 15; 21; 6; 10; 15; 21; 6; 10; 15; 21 ].

(** The four 32-bit chaining words. *)
Record md5_state := MkMd5 { wa : Z; wb : Z; wc : Z; wd : Z }.

Definition md5_init : md5_state :=
  MkMd5 0x67452301 0xefcdab89 0x98badcfe 0x10325476.

Definition md5_round (M : list Z) (i : nat) (s : md5_state) : md5_state :=
  let '(MkMd5 a b c d) := s in
  let iz := Z.of_nat i in
  let '(f, g) :=
    if iz <? 16 then (Z.lor (Z.land b c) (Z.land (not32 b) d), iz)
    else if iz <? 32 then
      (Z.lor (Z.land d b) (Z.land (not32 d) c), (5 * iz + 1) mod 16)
    else if iz <? 48 then (Z.lxor b (Z.lxor c d), (3 * iz + 5) mod 16)
    else (Z.lxor c (Z.lor b (not32 d)), (7 * iz) mod 16) in
  let f' := add32 (add32 (add32 f a) (nth i md5_K 0)) (nth (Z.to_nat g) M 0) in
  MkMd5 d (add32 b (rotl32 f' (nth i md5_S 0))) b c.

Definition md5_block (s : md5_state) (M : list Z) : md5_state :=
  let r := fold_left (fun acc i => md5_round M i acc) (seq 0 64) s in
  MkMd5 (add32 (wa s) (wa r)) (add32 (wb s) (wb r))
        (add32 (wc s) (wc r)) (add32 (wd s) (wd r)).

(** Little-endian packing of bytes into 32-bit words, and back. *)
Fixpoint words_of_bytes (bs : list Z) : list Z :=
  match bs with
  | b0 :: b1 :: b2 :: b3 :: rest =>
      (b0 + Z.shiftl b1 8 + Z.shiftl b2 16 + Z.shiftl b3 24)
        :: words_of_bytes rest
  | _ => []
  end.

Definition bytes_of_word (w : Z) : list Z :=
  [ Z.land w 0xff; Z.land (Z.shiftr w 8) 0xff;
    Z.land (Z.shiftr w 16) 0xff; Z.land (Z.shiftr w 24) 0xff ].

Definition le_bytes64 (n : Z) : list Z :=
  map (fun i => Z.land (Z.shiftr n (8 * Z.of_nat i)) 0xff) (seq 0 8).

(** Padding: a 0x80 byte, zeros up to 56 modulo 64, the bit length. *)
Definition md5_pad (bs : list Z) : list Z :=
  let len := Z.of_nat (length bs) in
  let zeros := Z.to_nat ((55 - len) mod 64) in
  bs ++ [0x80] ++ repeat 0 zeros ++ le_bytes64 (8 * len).

Fixpoint md5_blocks (fuel : nat) (ws : list Z) (s : md5_state) : md5_state :=
  match fuel with
  | O => s
  | S fuel' =>
      match ws with
      | [] => s
      | _ => md5_blocks fuel' (skipn 16 ws) (md5_block s (firstn 16 ws))
      end
  end.

Definition bytes_of_string (s : string) : list Z :=
  map (fun c => Z.of_N (N_of_ascii c)) (list_ascii_of_string s).

Definition hex_digit (n : Z) : ascii :=
  nth (Z.to_nat n) (list_ascii_of_string "0123456789abcdef") "0"%char.

Definition hex_of_byte (b : Z) : string :=
  String (hex_digit (Z.shiftr b 4)) (String (hex_digit (Z.land b 0xf)) EmptyString).

Definition md5_digest (s : string) : list Z :=
  let ws := words_of_bytes (md5_pad (bytes_of_string s)) in
  let '(MkMd5 a b c d) := md5_blocks (length ws) ws md5_init in
  bytes_of_word a ++ bytes_of_word b ++ bytes_of_word c ++ bytes_of_word d.

(** [hashlib.md5(data).hexdigest()] *)
Definition md5_hexdigest (s : string) : string :=
  String.concat EmptyString (map hex_of_byte (md5_digest s)).

End Hashlib.

(* ===================================================================== *)
(** ** Python values and orjson.dumps *)
(* ===================================================================== *)

Module Orjson.

(** The values a task receives and returns.  [PObj] is any object orjson has
    no encoder of its own for; it carries what [str(obj)] returns, which is
    all [default=str] looks at.  Dictionaries keep their insertion order and
    have [str] keys.  Floats are not modelled. *)
#[warnings="-register-all"]
Inductive pyval : Type :=
| PNone
| PBool (b : bool)
| PInt (z : Z)
| PStr (s : string)
| PList (l : list pyval)
| PTuple (l : list pyval)
| PDict (d : list (string * pyval))
| PObj (str_ : string).

Definition hex_nibble (n : N) : ascii :=
  nth (N.to_nat n) (list_ascii_of_string "0123456789abcdef") "0"%char.

(** One character of a JSON string: the quote, the backslash and the control
    characters below 0x20 are escaped, every other byte is copied. *)
Definition escape_char (c : ascii) : string :=
  let n := N_of_ascii c in
  if (n =? 34)%N then String (ascii_of_N 92) (String c EmptyString)
  else if (n =? 92)%N then "\\"
  else if (n =? 8)%N then "\b"
  else if (n =? 9)%N then "\t"
  else if (n =? 10)%N then "\n"
  else if (n =? 12)%N then "\f"
  else if (n =? 13)%N then "\r"
  else if (n <? 32)%N then
    "\u00" ++ String (hex_nibble (n / 16)) (String (hex_nibble (n mod 16)) EmptyString)
  else String c EmptyString.

Fixpoint escape (s : string) : string :=
  match s with
  | EmptyString => EmptyString
  | String c r => escape_char c ++ escape r
  end.

Definition dquote : string := String (ascii_of_N 34) EmptyString.

Definition quote (s : string) : string := dquote ++ escape s ++ dquote.

(** orjson encodes an [int] only when it fits 64 bits (signed or unsigned). *)
Definition int_fits_64 (z : Z) : bool :=
  ((-9223372036854775808 <=? z) && (z <=? 18446744073709551615))%Z.

Definition decimal (z : Z) : string := NilZero.string_of_int (Z.to_int z).

(** [OPT_SORT_KEYS]: the items of a dictionary are written in the order of
    their keys, compared byte by byte. *)
Fixpoint insert_item (x : string * string) (l : list (string * string))
  : list (string * string) :=
  match l with
  | [] => [x]
  | y :: r => if String.leb (fst x) (fst y) then x :: l else y :: insert_item x r
  end.

Definition sort_keys (l : list (string * string)) : list (string * string) :=
  foldr insert_item [] l.

Definition render_item (kv : string * string) : string :=
  quote (fst kv) ++ ":" ++ snd kv.

Definition render_array (items : list string) : string :=
  "[" ++ String.concat "," items ++ "]".

Definition render_object (items : list (string * string)) : string :=
  "{" ++ String.concat "," (map render_item (sort_keys items)) ++ "}".

(** [orjson.dumps(v, default=str, option=orjson.OPT_SORT_KEYS)]; [None] is
    [JSONEncodeError].  The one cause of the error kept here is an integer
    out of range; the bound orjson puts on nesting is left out, so values
    are read as nested less deeply than that bound. *)
Fixpoint dumps (v : pyval) : option string :=
  match v with
  | PNone => Some "null"
  | PBool b => Some (if b then "true" else "false")
  | PInt z => if int_fits_64 z then Some (decimal z) else None
  | PStr s => Some (quote s)
  | PList l => render_array <$> mapM dumps l
  | PTuple l => render_array <$> mapM dumps l
  | PDict d =>
      render_object <$> mapM (fun kv => s ← dumps (snd kv); Some (fst kv, s)) d
  | PObj str_ => Some (quote str_)
  end.

End Orjson.

Export Orjson.

(* ===================================================================== *)
(** ** models.py, exceptions and the effect monad *)
(* ===================================================================== *)

Inductive FlowStatus := SCHEDULED | PENDING | RUNNING | SUCCESS | FAILED.

Module CacheResult.
(** [timestamp] is left out. *)
Record t := Build
  { flow_run_id : string; task_name : string; result : pyval;
    cache_key : string }.
End CacheResult.

(** [FlowRunStatusEvent] and [TaskRunStatusEvent], without time stamps. *)
Inductive StatusEvent :=
| FlowRunStatusEvent (flow_run_id : string) (status : FlowStatus)
| TaskRunStatusEvent (flow_run_id task_name : string) (status : FlowStatus)
    (result_cache_key : option string).

(** A raised [Exception]: its class and its argument.  What is raised and
    is not an [Exception] ([KeyboardInterrupt], a cancellation) is outside
    the model: no handler of the runtime catches it. *)
Record Exception := Exc { exc_class : string; exc_arg : string }.

Definition RuntimeError := Exc "RuntimeError".
Definition TypeError := Exc "TypeError".
Definition JSONEncodeError := Exc "JSONEncodeError".
Definition ValidationError := Exc "ValidationError".
Definition PydanticSerializationError := Exc "PydanticSerializationError".
Definition ClientError := Exc "ClientError".
Definition TaskError := Exc "TaskError".

Inductive outcome (A : Type) :=
| Return (a : A)
| Raise (e : Exception).
Arguments Return {A} a.
Arguments Raise {A} e.

(** Computations over a state [S]: what a statement mutated before it raised
    stays mutated. *)
Definition M (S A : Type) : Type := S -> outcome A * S.

#[global] Instance M_ret {S} : MRet (M S) := fun A a s => (Return a, s).
#[global] Instance M_bind {S} : MBind (M S) := fun A B k m s =>
  match m s with
  | (Return a, s') => k a s'
  | (Raise e, s') => (Raise e, s')
  end.
Definition raise {S A} (e : Exception) : M S A := fun s => (Raise e, s).
Definition gets {S A} (f : S -> A) : M S A := fun s => (Return (f s), s).
Definition modify {S} (f : S -> S) : M S unit := fun s => (Return tt, f s).

(** [try: m except Exception as e: h e] *)
Definition try_except {S A} (m : M S A) (h : Exception -> M S A) : M S A :=
  fun s => match m s with
           | (Return a, s') => (Return a, s')
           | (Raise e, s') => h e s'
           end.

(** [try: m finally: f] *)
Definition try_finally {S A} (m : M S A) (f : M S unit) : M S A :=
  fun s => let '(o, s') := m s in
           match f s' with
           | (Return _, s'') => (o, s'')
           | (Raise e, s'') => (Raise e, s'')
           end.

(** Run a computation on a component of the state. *)
Definition zoom {S T A} (get : S -> T) (put : T -> S -> S) (m : M T A) : M S A :=
  fun s => let '(o, t') := m (get s) in (o, put t' s).

(** Binding a call [f(p1, .., pn, *args, **kwargs)]: a keyword that names one
    of the parameters already bound by position is a [TypeError]. *)
Definition clash (params : list string) (kwargs : list (string * pyval))
  : option string :=
  List.find (fun k => existsb (String.eqb k) params) (map fst kwargs).

Definition bind_call {S} (fname : string) (params : list string)
    (kwargs : list (string * pyval)) : M S unit :=
  match clash params kwargs with
  | Some k =>
      raise (TypeError (fname ++ "() got multiple values for argument '" ++ k ++ "'"))
  | None => mret tt
  end.

(** The parameters [get_cached_result] and [store_result] bind by
    position. *)
Definition get_params : list string := ["self"; "flow_run_id"; "task_name"].
Definition store_params : list string :=
  ["self"; "flow_run_id"; "task_name"; "result"].

(* ===================================================================== *)
(** ** The world a runner acts on *)
(* ===================================================================== *)

(** What a key of the bucket holds: bytes that [CacheResult.model_validate_json]
    accepts (kept as the record they validate to), or anything else. *)
Inductive S3Object :=
| ValidEntry (c : CacheResult.t)
| InvalidBody (raw : string).

Inductive S3Call :=
| CreateClient
| GetObject (bucket key : string)
| PutObject (bucket key : string) (body : CacheResult.t).

(** The object store and the requests made to it. *)
Record S3 := MkS3
  { objects : gmap (string * string) S3Object; s3_calls : list S3Call }.

(** What the outside world does to a request: [Some e] makes it raise [e].
    The number is how many requests (or emissions) came before, so a fault
    may come and go. *)
Record Faults := MkFaults
  { create_client_fault : nat -> option Exception;
    get_object_fault : nat -> string -> string -> option Exception;
    put_object_fault : nat -> string -> string -> option Exception;
    emit_fault : nat -> StatusEvent -> option Exception;
    publish_fault : nat -> string -> StatusEvent -> option Exception }.

Definition no_faults : Faults :=
  MkFaults (fun _ => None) (fun _ _ _ => None) (fun _ _ _ => None)
           (fun _ _ => None) (fun _ _ _ => None).

(** A task body, called with the positional and the keyword arguments; what
    it returns or raises is a function of them. *)
Definition Callable : Type :=
  list pyval -> list (string * pyval) -> outcome pyval.

Record TaskCall := MkTaskCall
  { called_task : string; called_args : list pyval;
    called_kwargs : list (string * pyval) }.

(** The two cache managers a runner can hold. *)
Inductive CacheManagerObj :=
| CacheManager_ (bucket_name : string)
| InMemoryCacheManager_ (_cache : gmap string CacheResult.t).

Record ThreadPoolExecutor := MkExecutor
  { max_workers : nat; shut_down : bool }.

(** The attributes of a [LogManager] that decide where events go. *)
Record LogManagerObj := MkLogManager
  { nats_url : option string; is_remote : bool }.

(** The attributes of a [FlowRunner]; [logger] carries no state here. *)
Record FlowRunner := MkFlowRunner
  { flow_run_id : string;
    flow_name : string;
    enable_caching : bool;
    cache_manager : CacheManagerObj;
    cache_type : string;
    log_manager : LogManagerObj;
    tasks_status : gmap string FlowStatus;
    failed : bool;
    executor : ThreadPoolExecutor }.

(** The runner [self], the bucket, the status events that reached the
    observer (the lines of the local log, or the messages published), and
    the task bodies that were run. *)
Record World := MkWorld
  { self : FlowRunner;
    s3 : S3;
    emitted : list StatusEvent;
    body_calls : list TaskCall }.

Definition set_failed (b : bool) (r : FlowRunner) : FlowRunner :=
  MkFlowRunner (flow_run_id r) (flow_name r) (enable_caching r)
    (cache_manager r) (cache_type r) (log_manager r) (tasks_status r) b
    (executor r).

Definition set_task_status (name : string) (st : FlowStatus) (r : FlowRunner)
  : FlowRunner :=
  MkFlowRunner (flow_run_id r) (flow_name r) (enable_caching r)
    (cache_manager r) (cache_type r) (log_manager r)
    (<[name := st]> (tasks_status r)) (failed r) (executor r).

Definition set_cache_manager (c : CacheManagerObj) (r : FlowRunner)
  : FlowRunner :=
  MkFlowRunner (flow_run_id r) (flow_name r) (enable_caching r)
    c (cache_type r) (log_manager r) (tasks_status r) (failed r) (executor r).

Definition set_executor (e : ThreadPoolExecutor) (r : FlowRunner)
  : FlowRunner :=
  MkFlowRunner (flow_run_id r) (flow_name r) (enable_caching r)
    (cache_manager r) (cache_type r) (log_manager r) (tasks_status r)
    (failed r) e.

Definition put_self (r : FlowRunner) (w : World) : World :=
  MkWorld r (s3 w) (emitted w) (body_calls w).
Definition put_s3 (x : S3) (w : World) : World :=
  MkWorld (self w) x (emitted w) (body_calls w).
Definition put_emitted (l : list StatusEvent) (w : World) : World :=
  MkWorld (self w) (s3 w) l (body_calls w).
Definition put_body_calls (l : list TaskCall) (w : World) : World :=
  MkWorld (self w) (s3 w) (emitted w) l.

Definition on_self (f : FlowRunner -> FlowRunner) : M World unit :=
  modify (fun w => put_self (f (self w)) w).

(** [pydantic]: [model_dump_json] followed by [model_validate_json] on the
    [result: Any] field.  Tuples come back as lists; an object of a class
    without an encoder is a serialization error. *)
Fixpoint json_roundtrip (v : pyval) : option pyval :=
  match v with
  | PList l => PList <$> mapM json_roundtrip l
  | PTuple l => PList <$> mapM json_roundtrip l
  | PDict d =>
      PDict <$> mapM (fun kv => v' ← json_roundtrip (snd kv); Some (fst kv, v')) d
  | PObj _ => None
  | _ => Some v
  end.

(* ===================================================================== *)
(** ** class CacheManager *)
(* ===================================================================== *)

Module CacheManager.

Definition __init__ (bucket_name env_CACHE_BUCKET : option string) : string :=
  match bucket_name with
  | Some (String c b) => String c b
  | _ => default "flow-cache-bucket" env_CACHE_BUCKET
  end.

Definition _generate_cache_key (flow_run_id task_name : string)
    (args : list pyval) (kwargs : list (string * pyval)) : option string :=
  let input_data :=
    PDict [("task_name", PStr task_name); ("args", PTuple args);
           ("kwargs", PDict kwargs)] in
  input_str ← dumps input_data;
  let input_hash := Hashlib.md5_hexdigest input_str in
  Some ("result_cache/flow-" ++ flow_run_id ++ "/tasks/" ++ task_name
          ++ "/" ++ input_hash ++ ".json").

Section Methods.
Context (E : Faults) (bucket_name : string).

(** [self.session.create_client("s3")] entered with [async with]. *)
Definition create_client : M S3 unit := fun s =>
  let s' := MkS3 (objects s) (s3_calls s ++ [CreateClient]) in
  match create_client_fault E (length (s3_calls s)) with
  | Some e => (Raise e, s')
  | None => (Return tt, s')
  end.

(** [s3_client.get_object(..)] and [response["Body"].read()]. *)
Definition get_object (key : string) : M S3 S3Object := fun s =>
  let s' := MkS3 (objects s) (s3_calls s ++ [GetObject bucket_name key]) in
  match get_object_fault E (length (s3_calls s)) bucket_name key with
  | Some e => (Raise e, s')
  | None =>
      match objects s !! (bucket_name, key) with
      | Some o => (Return o, s')
      | None => (Raise (ClientError "NoSuchKey"), s')
      end
  end.

Definition put_object (key : string) (body : CacheResult.t) : M S3 unit :=
  fun s =>
  match put_object_fault E (length (s3_calls s)) bucket_name key with
  | Some e =>
      (Raise e, MkS3 (objects s) (s3_calls s ++ [PutObject bucket_name key body]))
  | None =>
      (Return tt,
       MkS3 (<[(bucket_name, key) := ValidEntry body]> (objects s))
            (s3_calls s ++ [PutObject bucket_name key body]))
  end.

Definition model_validate_json (o : S3Object) : M S3 CacheResult.t :=
  match o with
  | ValidEntry c => mret c
  | InvalidBody _ => raise (ValidationError "CacheResult")
  end.

Definition model_dump_json (c : CacheResult.t) : M S3 CacheResult.t :=
  match json_roundtrip (CacheResult.result c) with
  | Some r =>
      mret (CacheResult.Build (CacheResult.flow_run_id c)
              (CacheResult.task_name c) r (CacheResult.cache_key c))
  | None => raise (PydanticSerializationError "result")
  end.

Definition derive_key (flow_run_id task_name : string)
    (args : list pyval) (kwargs : list (string * pyval)) : M S3 string :=
  match _generate_cache_key flow_run_id task_name args kwargs with
  | Some k => mret k
  | None => raise (JSONEncodeError "Integer exceeds 64-bit range")
  end.

Definition get_cached_result (flow_run_id task_name : string)
    (args : list pyval) (kwargs : list (string * pyval))
  : M S3 (option CacheResult.t) :=
  bind_call "get_cached_result" get_params kwargs;;
  cache_key ← derive_key flow_run_id task_name args kwargs;
  create_client;;
  try_except
    (data ← get_object cache_key;
     c ← model_validate_json data;
     mret (Some c))
    (fun _ => mret None).

Definition store_result (flow_run_id task_name : string) (result : pyval)
    (args : list pyval) (kwargs : list (string * pyval)) : M S3 string :=
  bind_call "store_result" store_params kwargs;;
  cache_key ← derive_key flow_run_id task_name args kwargs;
  try_except
    (let cache_data :=
       CacheResult.Build flow_run_id task_name result cache_key in
     create_client;;
     body ← model_dump_json cache_data;
     put_object cache_key body;;
     let s3_path := "s3://" ++ bucket_name ++ "/" ++ cache_key in
     mret s3_path)
    (fun _ => mret EmptyString).

End Methods.
End CacheManager.

(* ===================================================================== *)
(** ** class InMemoryCacheManager *)
(* ===================================================================== *)

Module InMemoryCacheManager.

(** The state is the dictionary [self._cache]. *)
Abbreviation cache := (gmap string CacheResult.t).

Definition __init__ : cache := ∅.

Definition _generate_cache_key (flow_run_id task_name : string)
    (args : list pyval) (kwargs : list (string * pyval)) : option string :=
  let input_data :=
    PDict [("task_name", PStr task_name); ("args", PTuple args);
           ("kwargs", PDict kwargs)] in
  input_str ← dumps input_data;
  let input_hash := Hashlib.md5_hexdigest input_str in
  Some ("memory_cache/flow-" ++ flow_run_id ++ "/tasks/" ++ task_name
          ++ "/" ++ input_hash).

Definition derive_key (flow_run_id task_name : string)
    (args : list pyval) (kwargs : list (string * pyval)) : M cache string :=
  match _generate_cache_key flow_run_id task_name args kwargs with
  | Some k => mret k
  | None => raise (JSONEncodeError "Integer exceeds 64-bit range")
  end.

Definition get_cached_result (flow_run_id task_name : string)
    (args : list pyval) (kwargs : list (string * pyval))
  : M cache (option CacheResult.t) :=
  bind_call "get_cached_result" get_params kwargs;;
  cache_key ← derive_key flow_run_id task_name args kwargs;
  gets (fun _cache => _cache !! cache_key).

Definition store_result (flow_run_id task_name : string) (result : pyval)
    (args : list pyval) (kwargs : list (string * pyval)) : M cache string :=
  bind_call "store_result" store_params kwargs;;
  cache_key ← derive_key flow_run_id task_name args kwargs;
  try_except
    (let cache_data :=
       CacheResult.Build flow_run_id task_name result cache_key in
     modify (fun _cache => <[cache_key := cache_data]> _cache);;
     mret cache_key)
    (fun _ => mret EmptyString).

Definition clear_cache : M cache unit := modify (fun _ => ∅).

End InMemoryCacheManager.

(** The string both managers hash: [input_str] in [_generate_cache_key]. *)
Definition input_str (task_name : string) (args : list pyval)
    (kwargs : list (string * pyval)) : option string :=
  dumps (PDict [("task_name", PStr task_name); ("args", PTuple args);
                ("kwargs", PDict kwargs)]).

(* ===================================================================== *)
(** ** class LogManager *)
(* ===================================================================== *)

Module LogManager.

(** [NatTopics] *)
Definition FLOW_STATUS : string := "v1.svc.worker.flow.status".
Definition TASK_STATUS : string := "v1.svc.worker.task.status".

Definition __init__ (nats_url env_NATS_URL : option string) : LogManagerObj :=
  let url := match nats_url with
             | Some (String c u) => Some (String c u)
             | _ => env_NATS_URL
             end in
  MkLogManager url (bool_decide (url <> None)).

Section Methods.
Context (E : Faults).

(** Building [log_data]; in local mode what [logger.info] raises is counted
    here as well. *)
Definition build (log_data : StatusEvent) : M World StatusEvent := fun w =>
  match emit_fault E (length (emitted w)) log_data with
  | Some e => (Raise e, w)
  | None => (Return log_data, w)
  end.

(** [self.logger.info(log_data.model_dump_json())] *)
Definition logger_info (log_data : StatusEvent) : M World unit :=
  modify (fun w => put_emitted (emitted w ++ [log_data]) w).

(** Connecting to NATS when needed, and [nats_client.publish]. *)
Definition publish (subject : string) (log_data : StatusEvent) : M World unit :=
  fun w =>
  match publish_fault E (length (emitted w)) subject log_data with
  | Some e => (Raise e, w)
  | None => (Return tt, put_emitted (emitted w ++ [log_data]) w)
  end.

Definition _send_remote_log (log_data : StatusEvent) (log_type : string)
  : M World unit :=
  try_except (publish log_type log_data) (fun _ => mret tt).

(** The body the two [log_*_status] methods share. *)
Definition emit (log_type : string) (log_data : StatusEvent) : M World unit :=
  log_data ← build log_data;
  remote ← gets (fun w => is_remote (log_manager (self w)));
  if remote : bool then _send_remote_log log_data log_type
  else logger_info log_data.

Definition log_task_status (flow_run_id task_name : string)
    (status : FlowStatus) (result_cache_key : option string)
  : M World unit :=
  emit TASK_STATUS
    (TaskRunStatusEvent flow_run_id task_name status result_cache_key).

Definition log_flow_status (flow_run_id : string) (status : FlowStatus)
  : M World unit :=
  emit FLOW_STATUS (FlowRunStatusEvent flow_run_id status).

End Methods.
End LogManager.

(* ===================================================================== *)
(** ** class FlowRunner *)
(* ===================================================================== *)

(** The body of a flow, as far as the runner can tell: it awaits tasks one
    after the other, does what it likes with what each returns or raises,
    and in the end returns or raises. *)
Inductive flow_body :=
| FlowReturn (v : pyval)
| FlowRaise (e : Exception)
| AwaitTask (task_name : string) (task_func : Callable)
    (args : list pyval) (kwargs : list (string * pyval))
    (k : outcome pyval -> flow_body).

Module FlowRunner.

Definition __init__ (flow_run_id flow_name : string) (num_threads : nat)
    (cache_bucket : option string) (enable_caching : bool)
    (env_CACHE_BUCKET env_NATS_URL : option string) : FlowRunner :=
  let '(cache_manager, cache_type) :=
    if enable_caching
    then (CacheManager_ (CacheManager.__init__ cache_bucket env_CACHE_BUCKET),
          "s3")
    else (InMemoryCacheManager_ InMemoryCacheManager.__init__, "memory") in
  MkFlowRunner flow_run_id flow_name enable_caching cache_manager cache_type
    (LogManager.__init__ None env_NATS_URL) ∅ false
    (MkExecutor num_threads false).

Section Methods.
Context (E : Faults).

(** [self.cache_manager.get_cached_result(..)], on whichever manager the
    runner holds. *)
Definition cache_get (flow_run_id task_name : string)
    (args : list pyval) (kwargs : list (string * pyval))
  : M World (option CacheResult.t) := fun w =>
  match cache_manager (self w) with
  | CacheManager_ bucket =>
      zoom s3 put_s3
        (CacheManager.get_cached_result E bucket flow_run_id task_name
           args kwargs) w
  | InMemoryCacheManager_ c =>
      zoom (fun _ => c)
        (fun c' w => put_self (set_cache_manager (InMemoryCacheManager_ c') (self w)) w)
        (InMemoryCacheManager.get_cached_result flow_run_id task_name
           args kwargs) w
  end.

Definition cache_store (flow_run_id task_name : string) (result : pyval)
    (args : list pyval) (kwargs : list (string * pyval))
  : M World string := fun w =>
  match cache_manager (self w) with
  | CacheManager_ bucket =>
      zoom s3 put_s3
        (CacheManager.store_result E bucket flow_run_id task_name result
           args kwargs) w
  | InMemoryCacheManager_ c =>
      zoom (fun _ => c)
        (fun c' w => put_self (set_cache_manager (InMemoryCacheManager_ c') (self w)) w)
        (InMemoryCacheManager.store_result flow_run_id task_name result
           args kwargs) w
  end.

(** [await task_func(..)] *)
Definition call_task (task_name : string) (task_func : Callable)
    (args : list pyval) (kwargs : list (string * pyval)) : M World pyval :=
  fun w =>
  (task_func args kwargs,
   put_body_calls (body_calls w ++ [MkTaskCall task_name args kwargs]) w).

Definition run_task (task_name : string) (task_func : Callable)
    (args : list pyval) (kwargs : list (string * pyval)) : M World pyval :=
  is_failed ← gets (fun w => failed (self w));
  if is_failed : bool then raise (RuntimeError "Flow is in failed state")
  else
    on_self (set_task_status task_name RUNNING);;
    try_except
      (fid ← gets (fun w => flow_run_id (self w));
       cached_result ← cache_get fid task_name args kwargs;
       match cached_result with
       | Some c =>
           on_self (set_task_status task_name SUCCESS);;
           LogManager.log_task_status E fid task_name SUCCESS
             (Some (CacheResult.cache_key c));;
           mret (CacheResult.result c)
       | None =>
           result ← call_task task_name task_func args kwargs;
           result_cache_key ← cache_store fid task_name result args kwargs;
           on_self (set_task_status task_name SUCCESS);;
           LogManager.log_task_status E fid task_name SUCCESS
             (Some result_cache_key);;
           mret result
       end)
      (fun e =>
         on_self (set_failed true);;
         on_self (set_task_status task_name FAILED);;
         fid ← gets (fun w => flow_run_id (self w));
         LogManager.log_task_status E fid task_name FAILED None;;
         raise e).

(** [await flow_func(..)]: every task the body awaits goes through
    [run_task]. *)
Fixpoint run_body (b : flow_body) : M World pyval :=
  match b with
  | FlowReturn v => mret v
  | FlowRaise e => raise e
  | AwaitTask task_name task_func args kwargs k => fun w =>
      let '(o, w') := run_task task_name task_func args kwargs w in
      run_body (k o) w'
  end.

(** The [finally] block of [run_flow]. *)
Definition cleanup : M World unit :=
  on_self (fun r =>
    set_executor (MkExecutor (max_workers (executor r)) true) r);;
  r ← gets self;
  if String.eqb (cache_type r) "memory" then
    match cache_manager r with
    | InMemoryCacheManager_ c =>
        zoom (fun _ => c)
          (fun c' w => put_self (set_cache_manager (InMemoryCacheManager_ c') (self w)) w)
          InMemoryCacheManager.clear_cache
    | CacheManager_ _ => mret tt
    end
  else mret tt.

Definition run_flow (flow_func : flow_body) : M World pyval :=
  try_finally
    (try_except
       (fid ← gets (fun w => flow_run_id (self w));
        LogManager.log_flow_status E fid RUNNING;;
        result ← run_body flow_func;
        is_failed ← gets (fun w => failed (self w));
        (if is_failed : bool then mret tt
         else LogManager.log_flow_status E fid SUCCESS);;
        mret result)
       (fun e =>
          on_self (set_failed true);;
          fid ← gets (fun w => flow_run_id (self w));
          LogManager.log_flow_status E fid FAILED;;
          raise e))
    cleanup.

End Methods.
End FlowRunner.

(* ===================================================================== *)
(** ** decorators.py: the task wrapper *)
(* ===================================================================== *)

Module Decorators.

(** What the wrapper can tell about an object it meets in a frame: it has
    a [_flow_runner] attribute (whose value may be falsy, [None] here), it
    is a [FlowRunner], or neither. *)
Inductive pyobj :=
| HasFlowRunnerAttr (value : option FlowRunner)
| IsFlowRunner (r : FlowRunner)
| OtherObject.

Record frame := MkFrame
  { f_locals : list (string * pyobj); f_globals : list (string * pyobj) }.

(** A job handed to [loop.run_in_executor]: [run_task] on a runner, to be
    run by the runner's pool. *)
Record Job := MkJob
  { job_runner : FlowRunner; job_task_name : string; job_func : Callable;
    job_args : list pyval; job_kwargs : list (string * pyval) }.

(** The module globals and the pool's queue. *)
Record Registry := MkRegistry
  { _active_flows : list (string * FlowRunner);
    _tasks : list (string * Callable);
    submitted : list Job }.

(** The dictionary display that merges two dictionaries: the keys of the
    first keep their place and take the second's value when it has one,
    the other keys of the second follow. *)
Definition lookup_item {A} (k : string) (d : list (string * A)) : option A :=
  snd <$> List.find (fun kv => String.eqb (fst kv) k) d.

Definition dict_merge {A} (d1 d2 : list (string * A)) : list (string * A) :=
  map (fun kv => (fst kv, default (snd kv) (lookup_item (fst kv) d2))) d1
  ++ filter (fun kv => lookup_item (fst kv) d1 = None) d2.

(** The [for] loop over one frame: [Some v] when it left by [break] with
    [flow_context = v]. *)
Fixpoint scan_items (items : list (string * pyobj))
  : option (option FlowRunner) :=
  match items with
  | [] => None
  | (_, obj) :: rest =>
      match obj with
      | HasFlowRunnerAttr v => Some v
      | IsFlowRunner r => Some (Some r)
      | OtherObject => scan_items rest
      end
  end.

(** The [while] loop over the frames above the wrapper's own. *)
Fixpoint walk_stack (callers : list frame) : option FlowRunner :=
  match callers with
  | [] => None
  | f :: up =>
      match scan_items (dict_merge (f_locals f) (f_globals f)) with
      | Some (Some r) => Some r
      | _ => walk_stack up
      end
  end.

(** [TaskRegistry.register_task] *)
Definition register_task (name : string) (func : Callable)
    (tasks : list (string * Callable)) : list (string * Callable) :=
  if bool_decide (lookup_item name tasks = None) then tasks ++ [(name, func)]
  else map (fun kv => if String.eqb (fst kv) name then (name, func) else kv)
         tasks.

(** The wrapper [task] returns, called from the frames [callers]
    (innermost first). *)
Definition wrapper (func_name : string) (func : Callable)
    (callers : list frame)
    (args : list pyval) (kwargs : list (string * pyval)) : M Registry Job :=
  fun g =>
  let flow_context :=
    match last (map snd (_active_flows g)) with
    | Some r => Some r
    | None => walk_stack callers
    end in
  match flow_context with
  | None =>
      (Raise (TaskError ("Task '" ++ func_name
                ++ "' can only be called within a @flow context")), g)
  | Some r =>
      if shut_down (executor r) then
        (Raise (RuntimeError "cannot schedule new futures after shutdown"), g)
      else
        let job := MkJob r func_name func args kwargs in
        (Return job,
         MkRegistry (_active_flows g) (_tasks g) (submitted g ++ [job]))
  end.

End Decorators.

(* ===================================================================== *)
(** ** class TaskRegistry, and the decorators [flow] and [task] *)
(* ===================================================================== *)

(** [d[k] = v] and [d.pop(k, None)] on a dictionary kept in insertion
    order. *)
Definition dict_set {A} (k : string) (v : A) (d : list (string * A))
  : list (string * A) :=
  if bool_decide (Decorators.lookup_item k d = None) then d ++ [(k, v)]
  else map (fun kv => if String.eqb (fst kv) k then (k, v) else kv) d.

Definition dict_pop {A} (k : string) (d : list (string * A))
  : list (string * A) :=
  filter (fun kv => fst kv <> k) d.

Module TaskRegistry.

Definition register_task (name : string) (func : Callable)
    (_tasks : list (string * Callable)) : list (string * Callable) :=
  Decorators.register_task name func _tasks.

Definition get_task (name : string) (_tasks : list (string * Callable))
  : option Callable :=
  Decorators.lookup_item name _tasks.

End TaskRegistry.

Definition FlowError := Exc "FlowError".
Definition ValueError := Exc "ValueError".

(** [str.lower] on the ASCII letters, which is all the comparison with
    ["true"] depends on. *)
Definition lower_char (c : ascii) : ascii :=
  let n := N_of_ascii c in
  if ((65 <=? n) && (n <=? 90))%N then ascii_of_N (n + 32) else c.

Fixpoint lower (s : string) : string :=
  match s with
  | EmptyString => EmptyString
  | String c r => String (lower_char c) (lower r)
  end.

(** [os.environ], as far as the decorators read it. *)
Record Environ := MkEnviron
  { FLOW_RUN_ID : option string;
    ENABLE_S3_CACHING : option string;
    CACHE_BUCKET : option string;
    NATS_URL : option string;
    LOG_LEVEL : option string }.

(** The keys of [logging.getLevelNamesMapping()]. *)
Definition level_names : list string :=
  ["CRITICAL"; "FATAL"; "ERROR"; "WARN"; "WARNING"; "INFO"; "DEBUG"; "NOTSET"].

Definition KeyError := Exc "KeyError".

(** The coroutine [runner.run_flow(func, ..)] returns: nothing of it has run
    yet. *)
Record Coroutine := MkCoroutine
  { co_runner : FlowRunner; co_flow_name : string }.

(** The module globals of [decorators.py], and the [_flow_runner] attribute
    set on flow functions. *)
Record Globals := MkGlobals
  { _flow_registry : list (string * string);
    _active_flows : list (string * FlowRunner);
    _flow_runner : list (string * FlowRunner) }.

Module Wrapping.

(** The decorator [flow], applied to the function [func_name] in the module
    whose [__name__] is [caller_name] ([None]: no caller frame, or no
    [__name__] in its globals). *)
Definition flow (caller_name : option string) (func_name : string)
  : M Globals unit := fun g =>
  let module_name := default "__main__" caller_name in
  match Decorators.lookup_item module_name (_flow_registry g) with
  | Some existing_flow =>
      (Raise (FlowError ("Only one @flow is allowed per file."
                ++ " Found existing flow: " ++ existing_flow)), g)
  | None =>
      (Return tt,
       MkGlobals (_flow_registry g ++ [(module_name, func_name)])
                 (_active_flows g) (_flow_runner g))
  end.

Section Wrapper.
(** [str(uuid.UUID(s))], [None] when [s] is badly formed; the value of
    [str(uuid.uuid4())] in this call; and [str.upper], which follows the
    Unicode tables. *)
Context (uuid_parse : string -> option string) (uuid4 : string)
        (str_upper : string -> string).

(** The wrapper [flow] returns, called in the environment [env].  The
    constructor of the runner looks the log level up by name and raises
    [KeyError] when there is no such level. *)
Definition wrapper (env : Environ) (func_name : string)
  : M Globals Coroutine := fun g =>
  match uuid_parse (default uuid4 (FLOW_RUN_ID env)) with
  | None => (Raise (ValueError "badly formed hexadecimal UUID string"), g)
  | Some flow_run_id =>
      let is_cache :=
        String.eqb (lower (default "false" (ENABLE_S3_CACHING env))) "true" in
      let cache_bucket := CACHE_BUCKET env in
      let level := str_upper (default "INFO" (LOG_LEVEL env)) in
      if negb (existsb (String.eqb level) level_names) then
        (Raise (KeyError level), g)
      else
        let runner :=
          FlowRunner.__init__ flow_run_id func_name 4 cache_bucket is_cache
            (CACHE_BUCKET env) (NATS_URL env) in
        let attrs := dict_set func_name runner (_flow_runner g) in
        let active := dict_set flow_run_id runner (_active_flows g) in
        (* try: return runner.run_flow(..)  finally: _active_flows.pop(..) *)
        (Return (MkCoroutine runner func_name),
         MkGlobals (_flow_registry g) (dict_pop flow_run_id active) attrs)
  end.

End Wrapper.

(** The decorator [task]: the function is registered under its name. *)
Definition task (func_name : string) (func : Callable)
    (_tasks : list (string * Callable)) : list (string * Callable) :=
  TaskRegistry.register_task func_name func _tasks.

End Wrapping.

(* ===================================================================== *)
(** ** Worlds and flows used in the examples *)
(* ===================================================================== *)

Definition run_id : string := "5f0c1c0e-7d4b-4b6f-9d2a-0a1b2c3d4e5f".

Definition fresh_world (enable_caching : bool) : World :=
  MkWorld (FlowRunner.__init__ run_id "demo" 4 None enable_caching None None)
          (MkS3 ∅ []) [] [].

(** [fetch(x)] returns 42, [divide(a, b)] raises on a zero divisor. *)
Definition fetch : Callable := fun _ _ => Return (PInt 42).
Definition divide : Callable := fun args _ =>
  match args with
  | [PInt a; PInt b] =>
      if (b =? 0)%Z then Raise (Exc "ZeroDivisionError" "division by zero")
      else Return (PInt (a / b))
  | _ => Raise (TypeError "divide")
  end.

(** A flow that awaits [A] then [B] and lets what they raise through. *)
Definition flow_A_then_B (A : string) (fA : Callable) (argsA : list pyval)
    (kwA : list (string * pyval)) (B : string) (fB : Callable)
    (argsB : list pyval) (kwB : list (string * pyval)) : flow_body :=
  AwaitTask A fA argsA kwA (fun oa =>
    match oa with
    | Raise e => FlowRaise e
    | Return _ =>
        AwaitTask B fB argsB kwB (fun ob =>
          match ob with
          | Raise e => FlowRaise e
          | Return v => FlowReturn v
          end)
    end).

Definition demo_flow_ok : flow_body :=
  flow_A_then_B "fetch" fetch [PStr "x"] [] "divide" divide [PInt 10; PInt 2] [].
Definition demo_flow_fail : flow_body :=
  flow_A_then_B "fetch" fetch [PStr "x"] [] "divide" divide [PInt 10; PInt 0] [].

(** A flow that awaits [divide] and goes on whatever it returned or raised. *)
Definition demo_flow_swallow : flow_body :=
  AwaitTask "divide" divide [PInt 10; PInt 0] [] (fun _ => FlowReturn PNone).

(** A runner that publishes to NATS, and a server that cannot be reached. *)
Definition remote_world : World :=
  MkWorld (FlowRunner.__init__ run_id "demo" 4 None false None
             (Some "nats://localhost:4222"))
          (MkS3 ∅ []) [] [].


(** The local logger raises on every event. *)
Definition logger_broken : Faults :=
  MkFaults (fun _ => None) (fun _ _ _ => None) (fun _ _ _ => None)
           (fun _ _ => Some (Exc "OSError" "log file is not writable"))
           (fun _ _ _ => None).


Definition nats_down : Faults :=
  MkFaults (fun _ => None) (fun _ _ _ => None) (fun _ _ _ => None)
           (fun _ _ => None)
           (fun _ _ _ => Some (Exc "NoServersError" "nats: no servers available")).

(* ===================================================================== *)
(** ** Vocabulary of the statements *)
(* ===================================================================== *)

(** Two strings with the same digest that are not the same string. *)
Definition hash_collision (s s' : string) : Prop :=
  s <> s' /\ Hashlib.md5_hexdigest s = Hashlib.md5_hexdigest s'.

Definition fetch_input (x : string) : string :=
  "{" ++ quote "args" ++ ":[" ++ quote x ++ "]," ++ quote "kwargs" ++ ":{},"
      ++ quote "task_name" ++ ":" ++ quote "fetch" ++ "}".

Definition fused_world : World :=
  put_self (set_failed true (self (fresh_world false))) (fresh_world false).

(** What [run_task] never touches. *)
Definition same_setup (r r' : FlowRunner) : Prop :=
  flow_run_id r' = flow_run_id r
  /\ cache_type r' = cache_type r
  /\ executor r' = executor r
  /\ match cache_manager r, cache_manager r' with
     | CacheManager_ b, CacheManager_ b' => b = b'
     | InMemoryCacheManager_ _, InMemoryCacheManager_ _ => True
     | _, _ => False
     end.

(** A relation between the world before and after a computation that every
    step keeps. *)
Definition preserves {A} (R : relation World) (m : M World A) : Prop :=
  forall w o w', m w = (o, w') -> R w w'.

Definition setup_kept (w w' : World) : Prop := same_setup (self w) (self w').

(** What [FlowRunner.__init__] establishes between [cache_type] and the
    manager it creates. *)
Definition runner_wf (r : FlowRunner) : Prop :=
  cache_type r = match cache_manager r with
                 | CacheManager_ _ => "s3"
                 | InMemoryCacheManager_ _ => "memory"
                 end.

(** An object from which the wrapper cannot get a runner. *)
Definition carries_no_runner (obj : Decorators.pyobj) : Prop :=
  match obj with
  | Decorators.OtherObject | Decorators.HasFlowRunnerAttr None => True
  | _ => False
  end.

Definition idle_registry : Decorators.Registry :=
  Decorators.MkRegistry [] [("fetch", fetch)] [].

Definition plain_stack : list Decorators.frame :=
  [ Decorators.MkFrame [("x", Decorators.OtherObject)]
      [("fetch", Decorators.OtherObject);
       ("helper", Decorators.HasFlowRunnerAttr None)];
    Decorators.MkFrame [] [("fetch", Decorators.OtherObject)] ].

(** The emitter returns normally on every event. *)
Definition emitter_total (E : Faults) : Prop :=
  (forall n ev, emit_fault E n ev = None)
  /\ (forall n subject ev, publish_fault E n subject ev = None).

(** What the cache operations leave alone. *)
Definition cache_frame (w w' : World) : Prop :=
  emitted w' = emitted w
  /\ body_calls w' = body_calls w
  /\ failed (self w') = failed (self w)
  /\ tasks_status (self w') = tasks_status (self w)
  /\ flow_run_id (self w') = flow_run_id (self w).

(** The world once [run_flow] has emitted the flow's [RUNNING] event, and the
    world its [finally] block leaves. *)
Definition started (w : World) : World :=
  put_emitted (emitted w ++ [FlowRunStatusEvent (flow_run_id (self w)) RUNNING]) w.

Definition cleaned (w : World) : World :=
  let r := set_executor (MkExecutor (max_workers (executor (self w))) true) (self w) in
  put_self
    (if String.eqb (cache_type r) "memory" then
       match cache_manager r with
       | InMemoryCacheManager_ _ => set_cache_manager (InMemoryCacheManager_ ∅) r
       | CacheManager_ _ => r
       end
     else r) w.

Definition task_terminal_event (fid : string) (ev : StatusEvent) : Prop :=
  match ev with
  | TaskRunStatusEvent fid' _ SUCCESS (Some _) => fid' = fid
  | TaskRunStatusEvent fid' _ FAILED None => fid' = fid
  | _ => False
  end.

(** The kind, task and status of an event. *)
Definition event_label (ev : StatusEvent) : option string * FlowStatus :=
  match ev with
  | FlowRunStatusEvent _ st => (None, st)
  | TaskRunStatusEvent _ name st _ => (Some name, st)
  end.

Definition terminal_status (o : outcome pyval) : FlowStatus :=
  match o with Return _ => SUCCESS | Raise _ => FAILED end.

(** No request to the bucket fails. *)
Definition s3_reliable (E : Faults) : Prop :=
  (forall n, create_client_fault E n = None)
  /\ (forall n b k, get_object_fault E n b k = None)
  /\ (forall n b k, put_object_fault E n b k = None).


(** The entry of the bucket a read of [key] validates to. *)
Definition s3_entry (s : S3) (bucket key : string) : option CacheResult.t :=
  match objects s !! (bucket, key) with
  | Some (ValidEntry c) => Some c
  | _ => None
  end.




(** The S3 client cannot be created. *)
Definition no_client : Faults :=
  MkFaults (fun _ => Some (Exc "ProfileNotFound" "The config profile could not be found"))
           (fun _ _ _ => None) (fun _ _ _ => None) (fun _ _ => None)
           (fun _ _ _ => None).

(** Every integer inside the value fits 64 bits. *)
Fixpoint encodable (v : pyval) : bool :=
  match v with
  | PInt z => int_fits_64 z
  | PList l => forallb encodable l
  | PTuple l => forallb encodable l
  | PDict d => forallb (fun kv => encodable (snd kv)) d
  | _ => true
  end.

(** The fuse, once set, stays set. *)
Definition fuse_kept (w w' : World) : Prop :=
  failed (self w) = true -> failed (self w') = true.

(** The status of every task but [name] is what it was. *)
Definition others_kept (name : string) (w w' : World) : Prop :=
  forall n, n <> name ->
            tasks_status (self w') !! n = tasks_status (self w) !! n.

(** Every entry of the in-memory cache is still there, unchanged. *)
Definition memory_entries_kept (w w' : World) : Prop :=
  forall c, cache_manager (self w) = InMemoryCacheManager_ c ->
  exists c', cache_manager (self w') = InMemoryCacheManager_ c' /\ c ⊆ c'.

(** What the log manager leaves alone. *)
Definition log_frame (w w' : World) : Prop :=
  self w' = self w /\ s3 w' = s3 w /\ body_calls w' = body_calls w.

(* ===================================================================== *)
(** * Properties *)
(* ===================================================================== *)

(** ** The library models agree with the libraries on known values *)

Example md5_empty :
  Hashlib.md5_hexdigest EmptyString = "d41d8cd98f00b204e9800998ecf8427e".
Proof. vm_compute. reflexivity. Qed.

Example md5_abc :
  Hashlib.md5_hexdigest "abc" = "900150983cd24fb0d6963f7d28e17f72".
Proof. vm_compute. reflexivity. Qed.

Example md5_two_blocks :
  Hashlib.md5_hexdigest
    "aaaaaaaaaaaaaaaaaaaaaaaaaaaaaaaaaaaaaaaaaaaaaaaaaaaaaaaaaaaaaaaaaaaaaa"
  = "0f5c6c4e740bfcc08c3c26ccb2673d46".
Proof. vm_compute. reflexivity. Qed.

Example dumps_sorts_keys :
  dumps (PDict [("b", PTuple [PInt (-3); PNone]); ("a", PBool true)])
  = Some ("{" ++ quote "a" ++ ":true," ++ quote "b" ++ ":[-3,null]}").
Proof. vm_compute. reflexivity. Qed.

Example dumps_big_int : dumps (PList [PInt (2 ^ 64)]) = None.
Proof. vm_compute. reflexivity. Qed.

Example fetch_key :
  InMemoryCacheManager._generate_cache_key run_id "fetch" [PStr "x"] []
  = Some ("memory_cache/flow-" ++ run_id
            ++ "/tasks/fetch/22c2a47b726167d3eaff895847a55093").
Proof. vm_compute. reflexivity. Qed.

(** ** Sorting the items of a dictionary *)

Section SortKeys.

Lemma leb_refl (a : string) : String.leb a a = true.
Proof. now destruct (String.leb_total a a). Qed.

Lemma leb_trans (a b c : string) :
  String.leb a b = true -> String.leb b c = true -> String.leb a c = true.
Proof.
  intros Hab Hbc.
  destruct (String.compare a b) eqn:Eab.
  - apply String.compare_eq_iff in Eab. now subst.
  - destruct (String.compare b c) eqn:Ebc.
    + apply String.compare_eq_iff in Ebc. now subst.
    + apply String_as_OT.cmp_lt in Eab, Ebc.
      pose proof (String_as_OT.lt_trans _ _ _ Eab Ebc) as Hac.
      apply String_as_OT.cmp_lt in Hac.
      unfold String_as_OT.cmp in Hac. unfold String.leb. now rewrite Hac.
    + unfold String.leb in Hbc. now rewrite Ebc in Hbc.
  - unfold String.leb in Hab. now rewrite Eab in Hab.
Qed.

Lemma leb_false_flip (a b : string) :
  String.leb a b = false -> String.leb b a = true.
Proof. destruct (String.leb_total a b) as [H | H]; congruence. Qed.

Lemma insert_item_comm (x y : string * string) (l : list (string * string)) :
  fst x <> fst y ->
  insert_item x (insert_item y l) = insert_item y (insert_item x l).
Proof.
  intros Hne. induction l as [| z r IH]; simpl.
  - destruct (String.leb (fst x) (fst y)) eqn:Hxy,
             (String.leb (fst y) (fst x)) eqn:Hyx; try reflexivity.
    + exfalso. apply Hne. now apply String.leb_antisym.
    + apply leb_false_flip in Hxy. congruence.
  - destruct (String.leb (fst y) (fst z)) eqn:Hyz,
             (String.leb (fst x) (fst z)) eqn:Hxz; simpl;
      rewrite ?Hyz, ?Hxz.
    + destruct (String.leb (fst x) (fst y)) eqn:Hxy,
               (String.leb (fst y) (fst x)) eqn:Hyx;
        simpl; rewrite ?Hyz, ?Hxz; try reflexivity.
      * exfalso. apply Hne. now apply String.leb_antisym.
      * apply leb_false_flip in Hxy. congruence.
    + destruct (String.leb (fst x) (fst y)) eqn:Hxy; [| reflexivity].
      pose proof (leb_trans _ _ _ Hxy Hyz). congruence.
    + destruct (String.leb (fst y) (fst x)) eqn:Hyx; [| reflexivity].
      pose proof (leb_trans _ _ _ Hyx Hxz). congruence.
    + now rewrite IH.
Qed.

Lemma sort_keys_perm (l1 l2 : list (string * string)) :
  l1 ≡ₚ l2 -> NoDup (map fst l1) -> sort_keys l1 = sort_keys l2.
Proof.
  induction 1 as [| x l l' Hp IH | x y l | l l' l'' Hp1 IH1 Hp2 IH2];
    intros Hnd; simpl.
  - reflexivity.
  - inversion Hnd; subst. f_equal. now apply IH.
  - inversion Hnd as [| ? ? Hin _]; subst.
    apply insert_item_comm. intros Heq. apply Hin. rewrite Heq. now left.
  - rewrite IH1 by assumption. apply IH2.
    assert (Hm : map fst l ≡ₚ map fst l') by now apply Permutation_map.
    now rewrite <- Hm.
Qed.

End SortKeys.

(** ** Cache keys *)

Section CacheKeys.

Lemma mapM_perm_Some {A B} (f : A -> option B) (l1 l2 : list A) :
  l1 ≡ₚ l2 -> forall k1, mapM f l1 = Some k1 ->
  exists k2, mapM f l2 = Some k2 /\ k1 ≡ₚ k2.
Proof.
  induction 1 as [| x l l' Hp IH | x y l | l l' l'' Hp1 IH1 Hp2 IH2];
    intros k1 Hk; simpl in *.
  - exists k1. split; [assumption | reflexivity].
  - destruct (f x) as [b |]; simpl in *; [| discriminate].
    destruct (mapM f l) as [k |]; simpl in *; [| discriminate].
    destruct (IH k eq_refl) as (k2 & -> & Hk2). simpl.
    injection Hk as <-. exists (b :: k2). split; [reflexivity |].
    now constructor.
  - destruct (f y) as [b |]; simpl in *; [| discriminate].
    destruct (f x) as [a |]; simpl in *; [| discriminate].
    destruct (mapM f l) as [k |]; simpl in *; [| discriminate].
    injection Hk as <-. exists (a :: b :: k). split; [reflexivity |].
    apply perm_swap.
  - destruct (IH1 _ Hk) as (k2 & Hk2 & Hp12).
    destruct (IH2 _ Hk2) as (k3 & Hk3 & Hp23).
    exists k3. split; [assumption |]. now transitivity k2.
Qed.

Lemma mapM_perm_None {A B} (f : A -> option B) (l1 l2 : list A) :
  l1 ≡ₚ l2 -> mapM f l1 = None -> mapM f l2 = None.
Proof.
  intros Hp H1. destruct (mapM f l2) as [k2 |] eqn:H2; [| reflexivity].
  symmetry in Hp.
  destruct (mapM_perm_Some f _ _ Hp _ H2) as (k1 & Hk1 & _). congruence.
Qed.

(** The items handed to [render_object] keep the keys of the dictionary. *)
Lemma dumped_items_keys (d : list (string * pyval)) (k : list (string * string)) :
  mapM (fun kv => s ← dumps (snd kv); Some (fst kv, s)) d = Some k ->
  map fst k = map fst d.
Proof.
  revert k. induction d as [| [key v] d IH]; intros k Hk; simpl in *.
  - now injection Hk as <-.
  - destruct (dumps v) as [s |]; simpl in *; [| discriminate].
    destruct (mapM _ d) as [k' |]; simpl in *; [| discriminate].
    injection Hk as <-. simpl. f_equal. now apply IH.
Qed.

(** A dictionary is written the same whatever the order its items were
    inserted in. *)
Lemma dumps_dict_perm (d1 d2 : list (string * pyval)) :
  NoDup (map fst d1) -> d1 ≡ₚ d2 -> dumps (PDict d1) = dumps (PDict d2).
Proof.
  intros Hnd Hp. simpl.
  destruct (mapM _ d1) as [k1 |] eqn:H1.
  - destruct (mapM_perm_Some _ _ _ Hp _ H1) as (k2 & -> & Hk). simpl.
    unfold render_object. rewrite (sort_keys_perm k1 k2); [reflexivity | assumption |].
    now rewrite (dumped_items_keys _ _ H1).
  - now rewrite (mapM_perm_None _ _ _ Hp H1).
Qed.

Lemma input_str_perm task_name args (kw1 kw2 : list (string * pyval)) :
  NoDup (map fst kw1) -> kw1 ≡ₚ kw2 ->
  input_str task_name args kw1 = input_str task_name args kw2.
Proof.
  intros Hnd Hp. pose proof (dumps_dict_perm _ _ Hnd Hp) as Hd.
  unfold input_str. simpl. simpl in Hd.
  rewrite Hd. reflexivity.
Qed.

Lemma s3_key_unfold fid task_name args kwargs :
  CacheManager._generate_cache_key fid task_name args kwargs
  = (s ← input_str task_name args kwargs;
     Some ("result_cache/flow-" ++ fid ++ "/tasks/" ++ task_name ++ "/"
             ++ Hashlib.md5_hexdigest s ++ ".json")).
Proof. reflexivity. Qed.

Lemma memory_key_unfold fid task_name args kwargs :
  InMemoryCacheManager._generate_cache_key fid task_name args kwargs
  = (s ← input_str task_name args kwargs;
     Some ("memory_cache/flow-" ++ fid ++ "/tasks/" ++ task_name ++ "/"
             ++ Hashlib.md5_hexdigest s)).
Proof. reflexivity. Qed.

End CacheKeys.

(** C3. Cache-key derivation does not depend on the order in which the
    keyword arguments were inserted: for the same flow run id, task name and
    positional arguments, two keyword dictionaries that are the same mapping
    give the same key, on the durable and on the volatile manager. *)
Theorem generate_cache_key_order_insensitive
    (fid task_name : string) (args : list pyval)
    (kw1 kw2 : list (string * pyval)) :
  NoDup (map fst kw1) -> NoDup (map fst kw2) ->
  (list_to_map kw1 : gmap string pyval) = list_to_map kw2 ->
  CacheManager._generate_cache_key fid task_name args kw1
  = CacheManager._generate_cache_key fid task_name args kw2
  /\ InMemoryCacheManager._generate_cache_key fid task_name args kw1
     = InMemoryCacheManager._generate_cache_key fid task_name args kw2.
Proof.
  intros Hnd1 Hnd2 Hmap.
  assert (Hp : kw1 ≡ₚ kw2) by now apply (list_to_map_inj (M := gmap string)).
  rewrite !s3_key_unfold, !memory_key_unfold.
  now rewrite (input_str_perm task_name args kw1 kw2 Hnd1 Hp).
Qed.

Lemma generate_cache_key_order_insensitive_witness :
  CacheManager._generate_cache_key run_id "resize"
    [PStr "in.png"] [("width", PInt 640); ("height", PInt 480)]
  = CacheManager._generate_cache_key run_id "resize"
      [PStr "in.png"] [("height", PInt 480); ("width", PInt 640)]
  /\ InMemoryCacheManager._generate_cache_key run_id "resize"
       [PStr "in.png"] [("width", PInt 640); ("height", PInt 480)]
     = InMemoryCacheManager._generate_cache_key run_id "resize"
         [PStr "in.png"] [("height", PInt 480); ("width", PInt 640)].
Proof.
  apply generate_cache_key_order_insensitive.
  - apply (bool_decide_unpack _). vm_compute. exact I.
  - apply (bool_decide_unpack _). vm_compute. exact I.
  - vm_compute. reflexivity.
Defined.

Section KeySeparation.

Lemma length_append (s t : string) :
  String.length (s ++ t) = String.length s + String.length t.
Proof. induction s as [| c s IH]; simpl; [reflexivity | now rewrite IH]. Qed.

Lemma append_inv_tail (s1 s2 t : string) : s1 ++ t = s2 ++ t -> s1 = s2.
Proof.
  revert s2. induction s1 as [| c s1 IH]; intros [| c' s2] H; simpl in H.
  - reflexivity.
  - apply (f_equal String.length) in H.
    change (String.length t = S (String.length (s2 ++ t))) in H.
    rewrite length_append in H. lia.
  - apply (f_equal String.length) in H.
    change (S (String.length (s1 ++ t)) = String.length t) in H.
    rewrite length_append in H. lia.
  - injection H as -> H. f_equal. now apply IH.
Qed.

Lemma s3_key_inj fid task_name (h h' : string) :
  "result_cache/flow-" ++ fid ++ "/tasks/" ++ task_name ++ "/" ++ h ++ ".json"
  = "result_cache/flow-" ++ fid ++ "/tasks/" ++ task_name ++ "/" ++ h' ++ ".json"
  -> h = h'.
Proof.
  intros H. do 5 apply String.app_inj in H. now apply append_inv_tail in H.
Qed.

Lemma memory_key_inj fid task_name (h h' : string) :
  "memory_cache/flow-" ++ fid ++ "/tasks/" ++ task_name ++ "/" ++ h
  = "memory_cache/flow-" ++ fid ++ "/tasks/" ++ task_name ++ "/" ++ h'
  -> h = h'.
Proof. intros H. now do 5 apply String.app_inj in H. Qed.

(** A tuple is written like the list of its items, and an object without
    an encoder like the string [str] gives for it. *)
Lemma dumps_tuple_as_list (l : list pyval) : dumps (PTuple l) = dumps (PList l).
Proof. reflexivity. Qed.

Lemma dumps_object_as_str (s : string) : dumps (PObj s) = dumps (PStr s).
Proof. reflexivity. Qed.

End KeySeparation.

(** C4, as the specification states it, fails: a tuple and a list with the
    same items are different argument values, yet they are hashed from the
    same string, so they share the key without any collision of the hash. *)
Lemma distinct_arguments_share_a_key :
  ~ (forall fid task_name args args' kwargs k,
       args <> args' ->
       CacheManager._generate_cache_key fid task_name args kwargs = Some k ->
       CacheManager._generate_cache_key fid task_name args' kwargs = Some k ->
       exists s s',
         input_str task_name args kwargs = Some s
         /\ input_str task_name args' kwargs = Some s'
         /\ hash_collision s s').
Proof.
  intros H.
  destruct (H run_id "total" [PTuple [PInt 1; PInt 2]] [PList [PInt 1; PInt 2]] []
              (default EmptyString
                 (CacheManager._generate_cache_key run_id "total"
                    [PList [PInt 1; PInt 2]] [])))
    as (s & s' & Hs & Hs' & Hne & _).
  - discriminate.
  - vm_compute. reflexivity.
  - vm_compute. reflexivity.
  - apply Hne. vm_compute in Hs, Hs'. congruence.
Qed.

(** C4, amended. For one flow run id and one task name, two invocations get
    the same key exactly when the MD5 digests of their serialized inputs
    agree; so arguments whose serializations differ get different keys
    unless the two serializations collide under MD5. *)
Theorem cache_key_equal_iff_digest_equal
    (fid task_name : string) (args args' : list pyval)
    (kwargs kwargs' : list (string * pyval)) (s s' : string) :
  input_str task_name args kwargs = Some s ->
  input_str task_name args' kwargs' = Some s' ->
  (CacheManager._generate_cache_key fid task_name args kwargs
   = CacheManager._generate_cache_key fid task_name args' kwargs'
   <-> Hashlib.md5_hexdigest s = Hashlib.md5_hexdigest s')
  /\ (InMemoryCacheManager._generate_cache_key fid task_name args kwargs
      = InMemoryCacheManager._generate_cache_key fid task_name args' kwargs'
      <-> Hashlib.md5_hexdigest s = Hashlib.md5_hexdigest s')
  /\ (s <> s' ->
      CacheManager._generate_cache_key fid task_name args kwargs
      = CacheManager._generate_cache_key fid task_name args' kwargs' ->
      hash_collision s s').
Proof.
  intros Hs Hs'. rewrite !s3_key_unfold, !memory_key_unfold, Hs, Hs'. simpl.
  assert (H1 : Some ("result_cache/flow-" ++ fid ++ "/tasks/" ++ task_name ++ "/"
                    ++ Hashlib.md5_hexdigest s ++ ".json")
               = Some ("result_cache/flow-" ++ fid ++ "/tasks/" ++ task_name ++ "/"
                    ++ Hashlib.md5_hexdigest s' ++ ".json")
               <-> Hashlib.md5_hexdigest s = Hashlib.md5_hexdigest s').
  { split; intros H.
    - apply (inj Some) in H. now apply s3_key_inj in H.
    - now rewrite H. }
  split; [exact H1 |]. split.
  - split; intros H.
    + apply (inj Some) in H. now apply memory_key_inj in H.
    + now rewrite H.
  - intros Hne Hk. split; [assumption | now apply H1].
Qed.

Lemma cache_key_equal_iff_digest_equal_witness :
  (CacheManager._generate_cache_key run_id "fetch" [PStr "x"] []
   = CacheManager._generate_cache_key run_id "fetch" [PStr "y"] []
   <-> Hashlib.md5_hexdigest (fetch_input "x")
       = Hashlib.md5_hexdigest (fetch_input "y"))
  /\ (InMemoryCacheManager._generate_cache_key run_id "fetch" [PStr "x"] []
      = InMemoryCacheManager._generate_cache_key run_id "fetch" [PStr "y"] []
      <-> Hashlib.md5_hexdigest (fetch_input "x")
          = Hashlib.md5_hexdigest (fetch_input "y"))
  /\ (fetch_input "x" <> fetch_input "y" ->
      CacheManager._generate_cache_key run_id "fetch" [PStr "x"] []
      = CacheManager._generate_cache_key run_id "fetch" [PStr "y"] [] ->
      hash_collision (fetch_input "x") (fetch_input "y")).
Proof.
  apply (cache_key_equal_iff_digest_equal run_id "fetch" [PStr "x"] [PStr "y"] [] []);
    vm_compute; reflexivity.
Defined.

(** ** The runner *)

Ltac unfold_monad :=
  unfold mbind, M_bind, mret, M_ret, try_except, try_finally, zoom, gets,
    modify, raise, on_self in *.

(** The first statement of [run_task]: with the fuse set nothing else
    happens. *)
Lemma run_task_when_failed E name f args kwargs w :
  failed (self w) = true ->
  FlowRunner.run_task E name f args kwargs w
  = (Raise (RuntimeError "Flow is in failed state"), w).
Proof.
  intros Hf. unfold FlowRunner.run_task. unfold_monad. now rewrite Hf.
Qed.

(** C1. Once the fuse is set, [run_task] raises the fuse error at once and
    leaves the whole world as it found it: no request to the cache, no
    status event, no change of the task-status map, no call of the body. *)
Theorem run_task_fuse_short_circuit
    (E : Faults) (w : World) (task_name : string) (task_func : Callable)
    (args : list pyval) (kwargs : list (string * pyval)) :
  failed (self w) = true ->
  let '(o, w') := FlowRunner.run_task E task_name task_func args kwargs w in
  o = Raise (RuntimeError "Flow is in failed state")
  /\ s3 w' = s3 w
  /\ cache_manager (self w') = cache_manager (self w)
  /\ emitted w' = emitted w
  /\ tasks_status (self w') = tasks_status (self w)
  /\ body_calls w' = body_calls w
  /\ w' = w.
Proof.
  intros Hf. rewrite run_task_when_failed by assumption. repeat split.
Qed.

Lemma run_task_fuse_short_circuit_witness :
  let '(o, w') :=
    FlowRunner.run_task no_faults "fetch" fetch [PStr "x"] [] fused_world in
  o = Raise (RuntimeError "Flow is in failed state")
  /\ s3 w' = s3 fused_world
  /\ cache_manager (self w') = cache_manager (self fused_world)
  /\ emitted w' = emitted fused_world
  /\ tasks_status (self w') = tasks_status (self fused_world)
  /\ body_calls w' = body_calls fused_world
  /\ w' = fused_world.
Proof.
  apply (run_task_fuse_short_circuit no_faults fused_world "fetch" fetch).
  reflexivity.
Defined.

Lemma same_setup_refl r : same_setup r r.
Proof. unfold same_setup. destruct (cache_manager r); auto. Qed.

Lemma same_setup_trans r1 r2 r3 :
  same_setup r1 r2 -> same_setup r2 r3 -> same_setup r1 r3.
Proof.
  unfold same_setup. intros (Ha & Hb & Hc & Hd) (Ha' & Hb' & Hc' & Hd').
  repeat split; try congruence.
  destruct (cache_manager r1), (cache_manager r2), (cache_manager r3);
    try tauto; congruence.
Qed.

Section Preserves.
Context (R : relation World) `{!PreOrder R}.

Lemma preserves_ret {A} (a : A) : preserves R (mret a).
Proof. intros w o w' H. injection H as <- <-. reflexivity. Qed.

Lemma preserves_raise {A} (e : Exception) : preserves R (raise (A := A) e).
Proof. intros w o w' H. injection H as <- <-. reflexivity. Qed.

Lemma preserves_gets {A} (f : World -> A) : preserves R (gets f).
Proof. intros w o w' H. injection H as <- <-. reflexivity. Qed.

Lemma preserves_bind {A B} (m : M World A) (k : A -> M World B) :
  preserves R m -> (forall a, preserves R (k a)) -> preserves R (m ≫= k).
Proof.
  intros Hm Hk w o w' H. unfold mbind, M_bind in H.
  destruct (m w) as [[a | e] w1] eqn:E1.
  - transitivity w1; [exact (Hm _ _ _ E1) | exact (Hk _ _ _ _ H)].
  - injection H as <- <-. exact (Hm _ _ _ E1).
Qed.

Lemma preserves_try_except {A} (m : M World A) (h : Exception -> M World A) :
  preserves R m -> (forall e, preserves R (h e)) -> preserves R (try_except m h).
Proof.
  intros Hm Hh w o w' H. unfold try_except in H.
  destruct (m w) as [[a | e] w1] eqn:E1.
  - injection H as <- <-. exact (Hm _ _ _ E1).
  - transitivity w1; [exact (Hm _ _ _ E1) | exact (Hh _ _ _ _ H)].
Qed.

Lemma preserves_try_finally {A} (m : M World A) (f : M World unit) :
  preserves R m -> preserves R f -> preserves R (try_finally m f).
Proof.
  intros Hm Hf w o w' H. unfold try_finally in H.
  destruct (m w) as [o1 w1] eqn:E1.
  destruct (f w1) as [[[] | e] w2] eqn:E2; injection H as <- <-;
    (transitivity w1; [exact (Hm _ _ _ E1) | exact (Hf _ _ _ E2)]).
Qed.

Lemma preserves_on_self (f : FlowRunner -> FlowRunner) :
  (forall w, R w (put_self (f (self w)) w)) -> preserves R (on_self f).
Proof. intros Hf w o w' H. injection H as <- <-. apply Hf. Qed.

End Preserves.

#[local] Instance setup_kept_preorder : PreOrder setup_kept.
Proof.
  split.
  - intros w. apply same_setup_refl.
  - intros w1 w2 w3. apply same_setup_trans.
Qed.

Section SetupKept.
Context (E : Faults).

Lemma cache_get_setup fid name args kwargs :
  preserves setup_kept (FlowRunner.cache_get E fid name args kwargs).
Proof.
  intros w o w' H. unfold FlowRunner.cache_get, zoom in H.
  unfold setup_kept, same_setup.
  destruct (cache_manager (self w)) eqn:Hc.
  - destruct (CacheManager.get_cached_result _ _ _ _ _ _ _) as [o1 s'].
    injection H as <- <-. simpl. rewrite Hc. auto.
  - destruct (InMemoryCacheManager.get_cached_result _ _ _ _ _) as [o1 c'].
    injection H as <- <-. simpl. auto.
Qed.

Lemma cache_store_setup fid name result args kwargs :
  preserves setup_kept (FlowRunner.cache_store E fid name result args kwargs).
Proof.
  intros w o w' H. unfold FlowRunner.cache_store, zoom in H.
  unfold setup_kept, same_setup.
  destruct (cache_manager (self w)) eqn:Hc.
  - destruct (CacheManager.store_result _ _ _ _ _ _ _ _) as [o1 s'].
    injection H as <- <-. simpl. rewrite Hc. auto.
  - destruct (InMemoryCacheManager.store_result _ _ _ _ _ _) as [o1 c'].
    injection H as <- <-. simpl. auto.
Qed.

Lemma emit_setup subject ev :
  preserves setup_kept (LogManager.emit E subject ev).
Proof.
  intros w o w' H. revert H.
  unfold LogManager.emit, LogManager.build, LogManager._send_remote_log,
    LogManager.publish, LogManager.logger_info.
  unfold_monad.
  destruct (emit_fault _ _ _); [intros [= <- <-]; apply same_setup_refl |].
  destruct (is_remote _); [| intros [= <- <-]; apply same_setup_refl].
  destruct (publish_fault _ _ _ _); intros [= <- <-]; apply same_setup_refl.
Qed.

Lemma call_task_setup name f args kwargs :
  preserves setup_kept (FlowRunner.call_task name f args kwargs).
Proof. intros w o w' H. injection H as <- <-. apply same_setup_refl. Qed.

Lemma set_task_status_setup name st :
  preserves setup_kept (on_self (set_task_status name st)).
Proof.
  apply preserves_on_self. intros w. unfold setup_kept, same_setup. simpl.
  destruct (cache_manager (self w)); auto.
Qed.

Lemma set_failed_setup b : preserves setup_kept (on_self (set_failed b)).
Proof.
  apply preserves_on_self. intros w. unfold setup_kept, same_setup. simpl.
  destruct (cache_manager (self w)); auto.
Qed.

End SetupKept.

Create HintDb setup.
#[local] Hint Resolve cache_get_setup cache_store_setup emit_setup
  call_task_setup set_task_status_setup set_failed_setup : setup.
#[local] Hint Extern 1 (preserves _ (mret _)) =>
  apply preserves_ret; tc_solve : setup.
#[local] Hint Extern 1 (preserves _ (raise _)) =>
  apply preserves_raise; tc_solve : setup.
#[local] Hint Extern 1 (preserves _ (gets _)) =>
  apply preserves_gets; tc_solve : setup.

Ltac preserves_step :=
  lazymatch goal with
  | |- preserves _ (_ ≫= _) => apply preserves_bind; [tc_solve | | intros ?]
  | |- preserves _ (try_except _ _) =>
      apply preserves_try_except; [tc_solve | | intros ?]
  | |- preserves _ (try_finally _ _) =>
      apply preserves_try_finally; [tc_solve | |]
  | |- preserves _ (match ?x with _ => _ end) => destruct x
  | |- preserves _ (LogManager.log_task_status _ _ _ _ _) => apply emit_setup
  | |- preserves _ (LogManager.log_flow_status _ _ _) => apply emit_setup
  | |- _ => solve [auto with setup]
  end.

Lemma run_task_setup E name f args kwargs :
  preserves setup_kept (FlowRunner.run_task E name f args kwargs).
Proof. unfold FlowRunner.run_task. repeat preserves_step. Qed.

Lemma run_body_setup E body : preserves setup_kept (FlowRunner.run_body E body).
Proof.
  induction body as [v | e | name f args kwargs k IH]; simpl.
  - apply preserves_ret; tc_solve.
  - apply preserves_raise; tc_solve.
  - intros w o w' H.
    destruct (FlowRunner.run_task E name f args kwargs w) as [o1 w1] eqn:E1.
    transitivity w1;
      [exact (run_task_setup _ _ _ _ _ _ _ _ E1) | exact (IH _ _ _ _ H)].
Qed.
#[local] Hint Resolve run_body_setup : setup.


(** C8. However [run_flow] ends (the body returned, the body raised, or
    emitting a status event raised) the worker pool is shut down afterwards
    and, when the runner holds the in-memory manager, its cache is empty. *)
Theorem run_flow_always_cleans_up
    (E : Faults) (flow_func : flow_body) (w : World) :
  runner_wf (self w) ->
  let w' := snd (FlowRunner.run_flow E flow_func w) in
  shut_down (executor (self w')) = true
  /\ (forall c, cache_manager (self w) = InMemoryCacheManager_ c ->
                cache_manager (self w') = InMemoryCacheManager_ ∅).
Proof.
  intros Hwf. unfold FlowRunner.run_flow, try_finally.
  match goal with
  | |- context [let '(o, s') := ?m w in _] =>
      assert (Hpres : preserves setup_kept m) by (repeat preserves_step);
      destruct (m w) as [o1 w1] eqn:E1
  end.
  apply Hpres in E1. destruct E1 as (Hid & Hty & Hex & Hcm).
  unfold FlowRunner.cleanup. unfold_monad. simpl.
  rewrite Hty, Hwf.
  destruct (cache_manager (self w)) as [b | c0] eqn:Hc,
           (cache_manager (self w1)) as [b1 | c1] eqn:Hc1; try contradiction;
    simpl; rewrite ?Hc1; simpl; split; try reflexivity; intros c; discriminate.
Qed.

Lemma run_flow_always_cleans_up_witness :
  let w' := snd (FlowRunner.run_flow no_faults demo_flow_fail (fresh_world false)) in
  shut_down (executor (self w')) = true
  /\ (forall c, cache_manager (self (fresh_world false)) = InMemoryCacheManager_ c ->
                cache_manager (self w') = InMemoryCacheManager_ ∅).
Proof. apply run_flow_always_cleans_up. reflexivity. Defined.

(** ** The task wrapper *)

Section TaskWrapper.
Import Decorators.

Lemma lookup_item_In {A} k (d : list (string * A)) v :
  lookup_item k d = Some v -> exists k', (k', v) ∈ d.
Proof.
  unfold lookup_item. destruct (List.find _ d) as [[k' v'] |] eqn:Hf; [| discriminate].
  simpl. intros [= <-]. apply find_some in Hf as [Hin _].
  exists k'. now apply list_elem_of_In.
Qed.

Lemma dict_merge_values {A} (P : A -> Prop) (d1 d2 : list (string * A)) :
  Forall (fun kv => P (snd kv)) d1 -> Forall (fun kv => P (snd kv)) d2 ->
  Forall (fun kv => P (snd kv)) (dict_merge d1 d2).
Proof.
  intros H1 H2. unfold dict_merge. apply Forall_app. split.
  - apply Forall_forall. intros kv Hin.
    apply list_elem_of_In, in_map_iff in Hin as ([k v] & <- & Hin).
    simpl. destruct (lookup_item k d2) as [v2 |] eqn:Hl; simpl.
    + apply lookup_item_In in Hl as [k' Hk'].
      rewrite Forall_forall in H2. exact (H2 _ Hk').
    + rewrite Forall_forall in H1. apply (H1 (k, v)). now apply list_elem_of_In.
  - apply Forall_forall. intros kv Hin.
    apply list_elem_of_filter in Hin as [_ Hin].
    rewrite Forall_forall in H2. now apply H2.
Qed.

Lemma scan_items_no_runner (items : list (string * pyobj)) :
  Forall (fun kv => carries_no_runner (snd kv)) items ->
  scan_items items = None \/ scan_items items = Some None.
Proof.
  induction 1 as [| [k obj] items Hobj _ IH]; simpl; [now left |].
  destruct obj as [[r |] | r |]; simpl in Hobj; try contradiction; auto.
Qed.

Lemma walk_stack_no_runner (callers : list frame) :
  Forall (fun f => Forall (fun kv => carries_no_runner (snd kv)) (f_locals f)
                   /\ Forall (fun kv => carries_no_runner (snd kv)) (f_globals f))
         callers ->
  walk_stack callers = None.
Proof.
  induction 1 as [| f up [Hl Hg] _ IH]; simpl; [reflexivity |].
  destruct (scan_items_no_runner _ (dict_merge_values _ _ _ Hl Hg)) as [-> | ->];
    exact IH.
Qed.

End TaskWrapper.

(** C9. Called while no flow is registered as active, and from a stack none
    of whose frames holds a runner (or an object with a usable
    [_flow_runner]) in its locals or globals, the task wrapper raises
    [TaskError] and changes nothing: no job is handed to the pool, so no
    task runs, and no runner is touched. *)
Theorem task_outside_flow_raises
    (func_name : string) (func : Callable) (callers : list Decorators.frame)
    (args : list pyval) (kwargs : list (string * pyval))
    (g : Decorators.Registry) :
  Decorators._active_flows g = [] ->
  Forall (fun f =>
            Forall (fun kv => carries_no_runner (snd kv)) (Decorators.f_locals f)
            /\ Forall (fun kv => carries_no_runner (snd kv)) (Decorators.f_globals f))
         callers ->
  Decorators.wrapper func_name func callers args kwargs g
  = (Raise (TaskError ("Task '" ++ func_name
              ++ "' can only be called within a @flow context")), g).
Proof.
  intros Hact Hstack. unfold Decorators.wrapper.
  rewrite Hact, (walk_stack_no_runner _ Hstack). reflexivity.
Qed.

Lemma task_outside_flow_raises_witness :
  Decorators.wrapper "fetch" fetch plain_stack [PStr "x"] [] idle_registry
  = (Raise (TaskError ("Task '" ++ "fetch"
              ++ "' can only be called within a @flow context")), idle_registry).
Proof.
  apply task_outside_flow_raises.
  - reflexivity.
  - unfold plain_stack. repeat constructor.
Defined.

(** ** Status events *)

Section Events.
Context (E : Faults).

Lemma cache_get_frame fid name args kwargs w o w' :
  FlowRunner.cache_get E fid name args kwargs w = (o, w') -> cache_frame w w'.
Proof.
  unfold FlowRunner.cache_get, zoom, cache_frame. intros H.
  destruct (cache_manager (self w)).
  - destruct (CacheManager.get_cached_result _ _ _ _ _ _ _) as [o1 s'].
    now injection H as <- <-.
  - destruct (InMemoryCacheManager.get_cached_result _ _ _ _ _) as [o1 c'].
    now injection H as <- <-.
Qed.

Lemma cache_store_frame fid name result args kwargs w o w' :
  FlowRunner.cache_store E fid name result args kwargs w = (o, w') ->
  cache_frame w w'.
Proof.
  unfold FlowRunner.cache_store, zoom, cache_frame. intros H.
  destruct (cache_manager (self w)).
  - destruct (CacheManager.store_result _ _ _ _ _ _ _ _) as [o1 s'].
    now injection H as <- <-.
  - destruct (InMemoryCacheManager.store_result _ _ _ _ _ _) as [o1 c'].
    now injection H as <- <-.
Qed.

Lemma emit_total subject ev w :
  emitter_total E ->
  LogManager.emit E subject ev w
  = (Return tt, put_emitted (emitted w ++ [ev]) w).
Proof.
  intros [Hb Hp].
  unfold LogManager.emit, LogManager.build, LogManager._send_remote_log,
    LogManager.publish, LogManager.logger_info.
  unfold_monad. rewrite Hb.
  destruct (is_remote _); [now rewrite Hp | reflexivity].
Qed.

(** In remote mode nothing that publishing raises leaves the log manager. *)
Lemma remote_publish_errors_swallowed subject ev w :
  is_remote (log_manager (self w)) = true ->
  emit_fault E (length (emitted w)) ev = None ->
  fst (LogManager.emit E subject ev w) = Return tt.
Proof.
  intros Hr Hb.
  unfold LogManager.emit, LogManager.build, LogManager._send_remote_log,
    LogManager.publish.
  unfold_monad. rewrite Hb, Hr.
  now destruct (publish_fault _ _ _ _).
Qed.

(** What one call of [run_task] emits and records when the fuse is not
    set: one terminal event for the task, [SUCCESS] with a key when it
    returns, [FAILED] without a key when it raises, in which case the
    fuse is set. *)
Lemma run_task_outcome name f args kwargs w o w' :
  emitter_total E -> failed (self w) = false ->
  FlowRunner.run_task E name f args kwargs w = (o, w') ->
  match o with
  | Return _ =>
      failed (self w') = false
      /\ tasks_status (self w') !! name = Some SUCCESS
      /\ exists key,
           emitted w' = (emitted w
             ++ [TaskRunStatusEvent (flow_run_id (self w)) name SUCCESS (Some key)])%list
  | Raise _ =>
      failed (self w') = true
      /\ tasks_status (self w') !! name = Some FAILED
      /\ emitted w' = (emitted w
           ++ [TaskRunStatusEvent (flow_run_id (self w)) name FAILED None])%list
  end.
Proof.
  intros Ht Hf. unfold FlowRunner.run_task, LogManager.log_task_status.
  unfold_monad. rewrite Hf. simpl.
  destruct (FlowRunner.cache_get _ _ _ _ _ _) as [[[c |] | e] w2] eqn:Hget;
    apply cache_get_frame in Hget as (Hem & Hbc & Hfl & Hts & Hid);
    simpl in Hem, Hbc, Hfl, Hts, Hid.
  - rewrite emit_total by assumption. intros [= <- <-]. simpl.
    rewrite Hfl, Hem, lookup_insert_eq. eauto.
  - unfold FlowRunner.call_task. destruct (f args kwargs) as [v | e].
    + destruct (FlowRunner.cache_store _ _ _ _ _ _ _) as [[key | e] w3] eqn:Hst;
        apply cache_store_frame in Hst as (Hem3 & Hbc3 & Hfl3 & Hts3 & Hid3);
        simpl in Hem3, Hbc3, Hfl3, Hts3, Hid3;
        rewrite emit_total by assumption; intros [= <- <-]; simpl;
        rewrite ?Hfl3, ?Hfl, ?Hem3, ?Hem, ?Hid3, ?Hid, lookup_insert_eq; eauto.
    + rewrite emit_total by assumption. intros [= <- <-]. simpl.
      rewrite Hem, Hid, lookup_insert_eq. auto.
  - rewrite emit_total by assumption. intros [= <- <-]. simpl.
    rewrite Hem, Hid, lookup_insert_eq. auto.
Qed.

End Events.

Section FlowEvents.
Context (E : Faults) (Htotal : emitter_total E).

Lemma cleanup_cleaned w : FlowRunner.cleanup w = (Return tt, cleaned w).
Proof.
  unfold FlowRunner.cleanup, cleaned. unfold_monad. simpl.
  destruct (String.eqb (cache_type (self w)) "memory"); [| reflexivity].
  destruct (cache_manager (self w)); reflexivity.
Qed.

Lemma run_flow_unfold body w :
  FlowRunner.run_flow E body w =
  match FlowRunner.run_body E body (started w) with
  | (Return v, wb) =>
      (Return v,
       cleaned (if failed (self wb) then wb
                else put_emitted
                       (emitted wb ++ [FlowRunStatusEvent (flow_run_id (self w)) SUCCESS])
                       wb))
  | (Raise e, wb) =>
      (Raise e,
       cleaned (put_emitted
                  (emitted wb ++ [FlowRunStatusEvent (flow_run_id (self wb)) FAILED])
                  (put_self (set_failed true (self wb)) wb)))
  end.
Proof.
  unfold FlowRunner.run_flow, LogManager.log_flow_status. unfold_monad.
  rewrite emit_total by assumption. fold (started w).
  destruct (FlowRunner.run_body E body (started w)) as [[v | e] wb]; simpl.
  - destruct (failed (self wb)); simpl.
    + now rewrite cleanup_cleaned.
    + rewrite emit_total by assumption. now rewrite cleanup_cleaned.
  - rewrite emit_total by assumption. now rewrite cleanup_cleaned.
Qed.

(** Every event a task call emits is a terminal one: there is no
    [RUNNING] event for a task. *)
Lemma run_task_events name f args kwargs w o w' :
  FlowRunner.run_task E name f args kwargs w = (o, w') ->
  exists l, emitted w' = (emitted w ++ l)%list
            /\ Forall (task_terminal_event (flow_run_id (self w))) l.
Proof.
  intros H. destruct (failed (self w)) eqn:Hf.
  - rewrite run_task_when_failed in H by assumption.
    injection H as <- <-. exists []. split; [now rewrite app_nil_r | constructor].
  - pose proof (run_task_outcome E _ _ _ _ _ _ _ Htotal Hf H) as Ho.
    destruct o as [v | e].
    + destruct Ho as (_ & _ & key & ->). eexists. split; [reflexivity |].
      repeat constructor.
    + destruct Ho as (_ & _ & ->). eexists. split; [reflexivity |].
      repeat constructor.
Qed.

Lemma run_body_events body w o w' :
  FlowRunner.run_body E body w = (o, w') ->
  exists l, emitted w' = (emitted w ++ l)%list
            /\ Forall (task_terminal_event (flow_run_id (self w))) l.
Proof.
  revert w o w'. induction body as [v | e | name f args kwargs k IH];
    intros w o w' H; simpl in H.
  - injection H as <- <-. exists []. split; [now rewrite app_nil_r | constructor].
  - injection H as <- <-. exists []. split; [now rewrite app_nil_r | constructor].
  - destruct (FlowRunner.run_task E name f args kwargs w) as [o1 w1] eqn:E1.
    destruct (run_task_events _ _ _ _ _ _ _ E1) as (l1 & Hl1 & HF1).
    destruct (IH _ _ _ _ H) as (l2 & Hl2 & HF2).
    apply run_task_setup in E1 as (Hid & _).
    exists (l1 ++ l2)%list. split.
    + now rewrite Hl2, Hl1, app_assoc.
    + apply Forall_app. split; [assumption |]. now rewrite <- Hid.
Qed.

End FlowEvents.

(** A task whose body raises, on a cache miss, raises the same exception out
    of [run_task]. *)
Lemma run_task_reraises_body_exception E name f args kwargs w w1 e :
  emitter_total E -> failed (self w) = false ->
  FlowRunner.cache_get E (flow_run_id (self w)) name args kwargs
    (put_self (set_task_status name RUNNING (self w)) w) = (Return None, w1) ->
  f args kwargs = Raise e ->
  exists w', FlowRunner.run_task E name f args kwargs w = (Raise e, w')
             /\ failed (self w') = true.
Proof.
  intros Ht Hf Hget Hbody.
  unfold FlowRunner.run_task, LogManager.log_task_status, FlowRunner.call_task.
  unfold_monad. rewrite Hf. simpl. rewrite Hget, Hbody.
  rewrite emit_total by assumption. eexists. split; reflexivity.
Qed.

(** C5, as the specification states it, fails: a flow that runs [fetch] then
    [divide] emits four events, none of them a task's [RUNNING]. *)
Lemma no_task_running_event :
  map event_label
    (emitted (snd (FlowRunner.run_flow no_faults demo_flow_ok (fresh_world false))))
  <> [ (None, RUNNING); (Some "fetch", RUNNING); (Some "fetch", SUCCESS);
       (Some "divide", RUNNING); (Some "divide", SUCCESS); (None, SUCCESS) ].
Proof. vm_compute. discriminate. Qed.

Section Ordering.
Context (E : Faults) (Htotal : emitter_total E).

Lemma run_flow_event_order body w :
  exists tevs terminal,
    emitted (snd (FlowRunner.run_flow E body w))
    = (emitted w ++ [FlowRunStatusEvent (flow_run_id (self w)) RUNNING]
         ++ tevs ++ terminal)%list
    /\ Forall (task_terminal_event (flow_run_id (self w))) tevs
    /\ (terminal = []
        \/ terminal = [FlowRunStatusEvent (flow_run_id (self w)) SUCCESS]
        \/ terminal = [FlowRunStatusEvent (flow_run_id (self w)) FAILED]).
Proof.
  rewrite run_flow_unfold by assumption.
  destruct (FlowRunner.run_body E body (started w)) as [[v | e] wb] eqn:Hb;
    destruct (run_body_events E Htotal _ _ _ _ Hb) as (l & Hl & HF);
    simpl in Hl, HF; exists l.
  - destruct (failed (self wb)); simpl.
    + exists []. rewrite Hl, app_nil_r, <- app_assoc. auto.
    + eexists. rewrite Hl, <- !app_assoc. simpl. auto.
  - apply run_body_setup in Hb as (Hid & _). simpl in Hid.
    eexists. simpl. rewrite Hl, Hid, <- !app_assoc. simpl. auto.
Qed.

Lemma flow_A_then_B_events A fA argsA kwA B fB argsB kwB w vA wA oB wB :
  FlowRunner.run_task E A fA argsA kwA (started w) = (Return vA, wA) ->
  FlowRunner.run_task E B fB argsB kwB wA = (oB, wB) ->
  map event_label
    (emitted (snd (FlowRunner.run_flow E
                     (flow_A_then_B A fA argsA kwA B fB argsB kwB) w)))
  = (map event_label (emitted w)
       ++ [ (None, RUNNING); (Some A, SUCCESS);
            (Some B, terminal_status oB); (None, terminal_status oB) ])%list.
Proof.
  intros HA HB.
  assert (Hf : failed (self (started w)) = false).
  { destruct (failed (self (started w))) eqn:Hf; [| reflexivity].
    rewrite run_task_when_failed in HA by assumption. discriminate. }
  pose proof (run_task_outcome E _ _ _ _ _ _ _ Htotal Hf HA) as (HfA & _ & kA & HeA).
  pose proof (run_task_outcome E _ _ _ _ _ _ _ Htotal HfA HB) as HoB.
  rewrite run_flow_unfold by assumption. simpl. rewrite HA. simpl. rewrite HB.
  destruct oB as [vB | eB]; simpl.
  - destruct HoB as (HfB & _ & kB & HeB). rewrite HfB. simpl.
    rewrite HeB, HeA. simpl. rewrite !map_app. simpl.
    now rewrite <- !app_assoc.
  - destruct HoB as (HfB & _ & HeB). rewrite HeB, HeA. simpl.
    rewrite !map_app. simpl. now rewrite <- !app_assoc.
Qed.

End Ordering.

(** C5, amended. When the emitter returns normally, what [run_flow] emits is
    the flow's [RUNNING] event, then terminal events of tasks only
    ([SUCCESS] with a key or [FAILED] without one; a task's [RUNNING] state
    is recorded in the status map and never emitted), then at most one
    terminal event of the flow.  For a flow that awaits [A] then [B], where
    [A] returns, this is flow [RUNNING], [A] [SUCCESS], [B] [SUCCESS], flow
    [SUCCESS], and it ends with [B] [FAILED], flow [FAILED] when [B]
    raises. *)
Theorem status_event_order (E : Faults) (w : World) :
  emitter_total E ->
  (forall body, exists tevs terminal,
      emitted (snd (FlowRunner.run_flow E body w))
      = (emitted w ++ [FlowRunStatusEvent (flow_run_id (self w)) RUNNING]
           ++ tevs ++ terminal)%list
      /\ Forall (task_terminal_event (flow_run_id (self w))) tevs
      /\ (terminal = []
          \/ terminal = [FlowRunStatusEvent (flow_run_id (self w)) SUCCESS]
          \/ terminal = [FlowRunStatusEvent (flow_run_id (self w)) FAILED]))
  /\ (forall A fA argsA kwA B fB argsB kwB vA wA oB wB,
        FlowRunner.run_task E A fA argsA kwA (started w) = (Return vA, wA) ->
        FlowRunner.run_task E B fB argsB kwB wA = (oB, wB) ->
        map event_label
          (emitted (snd (FlowRunner.run_flow E
                           (flow_A_then_B A fA argsA kwA B fB argsB kwB) w)))
        = (map event_label (emitted w)
             ++ [ (None, RUNNING); (Some A, SUCCESS);
                  (Some B, terminal_status oB); (None, terminal_status oB) ])%list).
Proof.
  intros Ht. split.
  - intros body. now apply run_flow_event_order.
  - intros. now apply (flow_A_then_B_events E Ht) with vA wA wB.
Qed.

Lemma status_event_order_witness :
  map event_label
    (emitted (snd (FlowRunner.run_flow no_faults demo_flow_fail (fresh_world false))))
  = [ (None, RUNNING); (Some "fetch", SUCCESS); (Some "divide", FAILED);
      (None, FAILED) ].
Proof.
  pose (rA := FlowRunner.run_task no_faults "fetch" fetch [PStr "x"] []
                (started (fresh_world false))).
  pose (rB := FlowRunner.run_task no_faults "divide" divide [PInt 10; PInt 0] []
                (snd rA)).
  exact (proj2 (status_event_order no_faults (fresh_world false)
                  (conj (fun _ _ => eq_refl) (fun _ _ _ => eq_refl)))
           "fetch" fetch [PStr "x"] [] "divide" divide [PInt 10; PInt 0] []
           (PInt 42) (snd rA) (fst rB) (snd rB)
           ltac:(vm_compute; reflexivity) ltac:(vm_compute; reflexivity)).
Defined.

(** ** The cache managers, operation by operation *)

Section CacheOperations.
Context (E : Faults).

Lemma bind_call_ok {S} fname params kwargs (s : S) :
  clash params kwargs = None ->
  bind_call fname params kwargs s = (Return tt, s).
Proof. intros H. unfold bind_call. now rewrite H. Qed.

Lemma no_clash params kwargs :
  Forall (fun kv => fst kv ∉ params) kwargs -> clash params kwargs = None.
Proof.
  unfold clash. induction 1 as [| [k v] kw Hk _ IH]; simpl; [reflexivity |].
  destruct (existsb (String.eqb k) params) eqn:Hex; [| exact IH].
  exfalso. apply Hk. apply existsb_exists in Hex as (p & Hin & Heq).
  apply String.eqb_eq in Heq. subst. now apply list_elem_of_In.
Qed.



Lemma s3_get_cached_result_eq bucket fid name args kwargs key s :
  s3_reliable E -> clash get_params kwargs = None ->
  CacheManager._generate_cache_key fid name args kwargs = Some key ->
  CacheManager.get_cached_result E bucket fid name args kwargs s
  = (Return (s3_entry s bucket key),
     MkS3 (objects s) (s3_calls s ++ [CreateClient; GetObject bucket key])).
Proof.
  intros (Hc & Hg & Hp) Hkw Hkey. unfold CacheManager.get_cached_result.
  unfold mbind at 1, M_bind at 1.
  rewrite (bind_call_ok _ _ _ _ Hkw).
  unfold CacheManager.derive_key. rewrite Hkey.
  unfold CacheManager.create_client, CacheManager.get_object,
    CacheManager.model_validate_json, s3_entry.
  unfold_monad. rewrite Hc, Hg. simpl.
  destruct (objects s !! (bucket, key)) as [[c | raw] |];
    simpl; now rewrite <- app_assoc.
Qed.


Lemma memory_get_cached_result_eq fid name args kwargs key
    (c : gmap string CacheResult.t) :
  clash get_params kwargs = None ->
  InMemoryCacheManager._generate_cache_key fid name args kwargs = Some key ->
  InMemoryCacheManager.get_cached_result fid name args kwargs c
  = (Return (c !! key), c).
Proof.
  intros Hkw Hkey. unfold InMemoryCacheManager.get_cached_result.
  unfold mbind at 1, M_bind at 1.
  rewrite (bind_call_ok _ _ _ _ Hkw).
  unfold InMemoryCacheManager.derive_key. rewrite Hkey. reflexivity.
Qed.


End CacheOperations.

(** ** The two paths of [run_task] *)

Section RunTaskPaths.
Context (E : Faults) (Htotal : emitter_total E).








End RunTaskPaths.



(** ** Reading back what a computation did from what it returned *)

Section Inversion.
Context (E : Faults) (Htotal : emitter_total E).

Lemma bind_inv_return {S A B} (m : M S A) (k : A -> M S B) s b s' :
  (m ≫= k) s = (Return b, s') ->
  exists a s1, m s = (Return a, s1) /\ k a s1 = (Return b, s').
Proof.
  unfold mbind, M_bind. destruct (m s) as [[a | e] s1]; [eauto | discriminate].
Qed.

Lemma bind_call_inv {S} fname params kwargs (s s' : S) u :
  bind_call fname params kwargs s = (Return u, s') ->
  clash params kwargs = None /\ s' = s.
Proof.
  unfold bind_call. destruct (clash params kwargs); [discriminate |].
  intros [= _ <-]. auto.
Qed.


End Inversion.

Section CacheInversion.
Context (E : Faults).





End CacheInversion.

(** ** Calling a task twice *)


Section Idempotence.
Context (E : Faults) (Htotal : emitter_total E).



End Idempotence.



(** ** Errors of the cache *)

Section CacheErrors.
Context (E : Faults).

(** Inside the guarded block of a read, whatever the request, the read of
    the body or the validation raises ends as a miss. *)
Lemma read_errors_inside_try_are_misses bucket fid name args kwargs key s :
  clash get_params kwargs = None ->
  CacheManager._generate_cache_key fid name args kwargs = Some key ->
  create_client_fault E (length (s3_calls s)) = None ->
  s3_entry s bucket key = None
  \/ is_Some (get_object_fault E (S (length (s3_calls s))) bucket key) ->
  fst (CacheManager.get_cached_result E bucket fid name args kwargs s)
  = Return None.
Proof.
  intros Hcl Hkey Hc Hmiss. unfold CacheManager.get_cached_result.
  unfold mbind at 1, M_bind at 1. rewrite (bind_call_ok _ _ _ _ Hcl).
  unfold CacheManager.derive_key. rewrite Hkey.
  unfold CacheManager.create_client, CacheManager.get_object,
    CacheManager.model_validate_json, s3_entry in *.
  unfold_monad. rewrite Hc. simpl. rewrite length_app. simpl.
  replace (length (s3_calls s) + 1) with (S (length (s3_calls s))) by lia.
  destruct (get_object_fault E _ bucket key) as [e |]; [reflexivity |].
  destruct Hmiss as [Hmiss | [e He]]; [| discriminate].
  destruct (objects s !! (bucket, key)) as [[c | raw] |];
    [discriminate | reflexivity | reflexivity].
Qed.

(** A write returns, with the path or with the empty key, whatever creating
    the client, serializing the entry or the request raises. *)
Lemma write_errors_inside_try_give_empty_key bucket fid name v args kwargs key s :
  clash store_params kwargs = None ->
  CacheManager._generate_cache_key fid name args kwargs = Some key ->
  exists k,
    fst (CacheManager.store_result E bucket fid name v args kwargs s) = Return k
    /\ (k = "s3://" ++ bucket ++ "/" ++ key \/ k = EmptyString).
Proof.
  intros Hcl Hkey. unfold CacheManager.store_result.
  unfold mbind at 1, M_bind at 1. rewrite (bind_call_ok _ _ _ _ Hcl).
  unfold CacheManager.derive_key. rewrite Hkey.
  unfold CacheManager.create_client, CacheManager.put_object,
    CacheManager.model_dump_json.
  unfold_monad.
  destruct (create_client_fault E _); simpl; [eauto |].
  destruct (json_roundtrip v); simpl; [| eauto].
  destruct (put_object_fault E _ _ _); simpl; eauto.
Qed.

(** Creating the client is outside the guarded block of a read: what it
    raises leaves [get_cached_result]. *)
Lemma read_client_error_escapes bucket fid name args kwargs key s e :
  clash get_params kwargs = None ->
  CacheManager._generate_cache_key fid name args kwargs = Some key ->
  create_client_fault E (length (s3_calls s)) = Some e ->
  CacheManager.get_cached_result E bucket fid name args kwargs s
  = (Raise e, MkS3 (objects s) (s3_calls s ++ [CreateClient])).
Proof.
  intros Hcl Hkey Hc. unfold CacheManager.get_cached_result.
  unfold mbind at 1, M_bind at 1. rewrite (bind_call_ok _ _ _ _ Hcl).
  unfold CacheManager.derive_key. rewrite Hkey.
  unfold CacheManager.create_client. unfold_monad. now rewrite Hc.
Qed.

End CacheErrors.

(** C6 fails on the read path of the durable backend. When entering the S3
    client raises, [get_cached_result] lets the exception through (the same
    error is caught in [store_result]); [run_task] then sets the fuse, marks
    the task [FAILED], emits [FAILED] and raises, and the body never runs. *)
Theorem read_client_error_fails_task
    (E : Faults) (w : World) (bucket task_name key : string)
    (task_func : Callable) (args : list pyval) (kwargs : list (string * pyval))
    (e : Exception) :
  emitter_total E ->
  cache_manager (self w) = CacheManager_ bucket ->
  failed (self w) = false ->
  clash get_params kwargs = None ->
  CacheManager._generate_cache_key (flow_run_id (self w)) task_name args kwargs
    = Some key ->
  create_client_fault E (length (s3_calls (s3 w))) = Some e ->
  exists w',
    FlowRunner.run_task E task_name task_func args kwargs w = (Raise e, w')
    /\ failed (self w') = true
    /\ tasks_status (self w') !! task_name = Some FAILED
    /\ emitted w'
       = (emitted w
            ++ [TaskRunStatusEvent (flow_run_id (self w)) task_name FAILED None])%list
    /\ body_calls w' = body_calls w.
Proof.
  intros Ht Hc Hf Hcl Hkey Hfault.
  unfold FlowRunner.run_task, LogManager.log_task_status. unfold_monad.
  rewrite Hf. simpl. unfold FlowRunner.cache_get, zoom. simpl. rewrite Hc.
  rewrite (read_client_error_escapes E bucket _ _ _ _ key _ e Hcl Hkey Hfault).
  rewrite emit_total by assumption. simpl.
  eexists. split; [reflexivity |]. simpl.
  rewrite lookup_insert_eq. auto.
Qed.

Lemma read_client_error_fails_task_witness :
  exists w',
    FlowRunner.run_task no_client "fetch" fetch [PStr "x"] [] (fresh_world true)
    = (Raise (Exc "ProfileNotFound" "The config profile could not be found"), w')
    /\ failed (self w') = true
    /\ tasks_status (self w') !! "fetch" = Some FAILED
    /\ emitted w'
       = (emitted (fresh_world true)
            ++ [TaskRunStatusEvent (flow_run_id (self (fresh_world true)))
                  "fetch" FAILED None])%list
    /\ body_calls w' = body_calls (fresh_world true).
Proof.
  apply (read_client_error_fails_task no_client (fresh_world true)
           "flow-cache-bucket" "fetch"
           (default EmptyString
              (CacheManager._generate_cache_key run_id "fetch" [PStr "x"] []))).
  - split; reflexivity.
  - reflexivity.
  - reflexivity.
  - reflexivity.
  - vm_compute. reflexivity.
  - reflexivity.
Defined.

(** The same error on the write path is swallowed: the task succeeds with
    the empty key. *)
Example write_client_error_is_swallowed :
  let E := MkFaults (fun n => if Nat.eqb n 2 then Some (Exc "ProfileNotFound" "p") else None)
             (fun _ _ _ => None) (fun _ _ _ => None) (fun _ _ => None)
             (fun _ _ _ => None) in
  let '(o, w') := FlowRunner.run_task E "fetch" fetch [PStr "x"] [] (fresh_world true) in
  o = Return (PInt 42)
  /\ emitted w' = [TaskRunStatusEvent run_id "fetch" SUCCESS (Some EmptyString)].
Proof. vm_compute. auto. Qed.

(** Deriving the key is outside the guarded blocks as well: an argument
    orjson cannot encode fails the task before its body runs. *)
Example unencodable_argument_fails_task :
  let '(o, w') :=
    FlowRunner.run_task no_faults "fetch" fetch [PInt (2 ^ 64)] [] (fresh_world false) in
  o = Raise (JSONEncodeError "Integer exceeds 64-bit range")
  /\ failed (self w') = true /\ body_calls w' = [].
Proof. vm_compute. auto. Qed.

(** A keyword argument called [result] collides with the parameter of
    [store_result]: the body has returned, and the task fails. *)
Example keyword_named_result_fails_task :
  let '(o, w') :=
    FlowRunner.run_task no_faults "fetch" fetch [] [("result", PInt 1)]
      (fresh_world false) in
  o = Raise (TypeError "store_result() got multiple values for argument 'result'")
  /\ failed (self w') = true
  /\ body_calls w' = [MkTaskCall "fetch" [] [("result", PInt 1)]].
Proof. vm_compute. auto. Qed.

(** With the NATS server down the flow still returns its result; nothing
    reaches the observer. *)
Example unreachable_channel_does_not_fail_flow :
  let '(o, w') := FlowRunner.run_flow nats_down demo_flow_ok remote_world in
  o = Return (PInt 5) /\ failed (self w') = false /\ emitted w' = [].
Proof. vm_compute. auto. Qed.

(** When emitting raises, the flow raises what the emitter raised, and the
    pool is shut down all the same. *)
Example cleanup_after_emission_error :
  let '(o, w') := FlowRunner.run_flow logger_broken demo_flow_ok (fresh_world false) in
  o = Raise (Exc "OSError" "log file is not writable")
  /\ shut_down (executor (self w')) = true
  /\ cache_manager (self w') = InMemoryCacheManager_ ∅
  /\ body_calls w' = [].
Proof. vm_compute. auto. Qed.

(* ===================================================================== *)
(** * Further properties of the runtime and the decorators *)
(* ===================================================================== *)

(** ** The shape of cache keys *)

Section KeyShape.

Lemma append_eq_same_length (s1 s2 t1 t2 : string) :
  s1 ++ t1 = s2 ++ t2 -> String.length s1 = String.length s2 ->
  s1 = s2 /\ t1 = t2.
Proof.
  revert s2. induction s1 as [| c s1 IH]; intros [| c' s2] H Hl;
    simpl in *; try discriminate.
  - auto.
  - injection H as -> H. injection Hl as Hl.
    destruct (IH _ H Hl) as [-> ->]. auto.
Qed.

Lemma append_eq_same_length_tail (s1 s2 t1 t2 : string) :
  s1 ++ t1 = s2 ++ t2 -> String.length t1 = String.length t2 ->
  s1 = s2 /\ t1 = t2.
Proof.
  intros H Hl. apply append_eq_same_length; [assumption |].
  apply (f_equal String.length) in H. rewrite !length_append in H. lia.
Qed.

Lemma append_assoc (s t u : string) : (s ++ t) ++ u = s ++ t ++ u.
Proof.
  induction s as [| c s IH]; [reflexivity |].
  change (String c ((s ++ t) ++ u) = String c (s ++ t ++ u)). now f_equal.
Qed.

Lemma append_nil_r (s : string) : s ++ EmptyString = s.
Proof.
  induction s as [| c s IH]; [reflexivity |].
  change (String c (s ++ EmptyString) = String c s). now f_equal.
Qed.

Lemma concat_hex_length (bs : list Z) :
  String.length (String.concat EmptyString (map Hashlib.hex_of_byte bs))
  = 2 * length bs.
Proof.
  induction bs as [| b [| b' bs] IH]; [reflexivity | reflexivity |].
  change (String.concat EmptyString (map Hashlib.hex_of_byte (b :: b' :: bs)))
    with (Hashlib.hex_of_byte b
            ++ EmptyString ++ String.concat EmptyString (map Hashlib.hex_of_byte (b' :: bs))).
  rewrite !length_append, IH. simpl. lia.
Qed.

(** A digest is written with 32 hexadecimal digits. *)
Lemma md5_hexdigest_length (s : string) :
  String.length (Hashlib.md5_hexdigest s) = 32.
Proof.
  unfold Hashlib.md5_hexdigest. rewrite concat_hex_length.
  unfold Hashlib.md5_digest.
  destruct (Hashlib.md5_blocks _ _ _) as [a b c d]. reflexivity.
Qed.

Lemma key_tail_inj (fid fid' name name' h h' suffix : string) :
  String.length fid = String.length fid' ->
  String.length h = String.length h' ->
  fid ++ "/tasks/" ++ name ++ "/" ++ h ++ suffix
  = fid' ++ "/tasks/" ++ name' ++ "/" ++ h' ++ suffix ->
  fid = fid' /\ name = name' /\ h = h'.
Proof.
  intros Hf Hh H.
  apply append_eq_same_length in H as [-> H]; [| assumption].
  apply String.app_inj in H.
  assert (Hn : (name ++ "/") ++ (h ++ suffix) = (name' ++ "/") ++ (h' ++ suffix)).
  { rewrite !append_assoc. exact H. }
  apply append_eq_same_length_tail in Hn as [Hn Hs].
  - apply append_inv_tail in Hn. apply append_inv_tail in Hs. auto.
  - rewrite !length_append. lia.
Qed.

End KeyShape.

(** X1. Cache keys are namespaced: for run ids of the same length (the
    strings of UUIDs are), two invocations that derive the same key have the
    same run id and the same task name, and the digests of their inputs
    agree.  So an entry is never shared between flow runs or between tasks,
    whatever the arguments. *)
Theorem cache_keys_are_namespaced
    (fid fid' name name' : string) (args args' : list pyval)
    (kwargs kwargs' : list (string * pyval)) (k : string) :
  String.length fid = String.length fid' ->
  (CacheManager._generate_cache_key fid name args kwargs = Some k
   /\ CacheManager._generate_cache_key fid' name' args' kwargs' = Some k)
  \/ (InMemoryCacheManager._generate_cache_key fid name args kwargs = Some k
      /\ InMemoryCacheManager._generate_cache_key fid' name' args' kwargs' = Some k) ->
  fid = fid' /\ name = name'
  /\ exists s s',
       input_str name args kwargs = Some s
       /\ input_str name' args' kwargs' = Some s'
       /\ Hashlib.md5_hexdigest s = Hashlib.md5_hexdigest s'.
Proof.
  intros Hl [[H1 H2] | [H1 H2]].
  - rewrite s3_key_unfold in H1, H2.
    destruct (input_str name args kwargs) as [s |]; [| discriminate].
    destruct (input_str name' args' kwargs') as [s' |]; [| discriminate].
    simpl in H1, H2. apply (inj Some) in H1, H2. rewrite <- H2 in H1.
    apply String.app_inj in H1.
    apply key_tail_inj in H1 as (-> & -> & Hh);
      [| assumption | now rewrite !md5_hexdigest_length].
    eauto 10.
  - rewrite memory_key_unfold in H1, H2.
    destruct (input_str name args kwargs) as [s |]; [| discriminate].
    destruct (input_str name' args' kwargs') as [s' |]; [| discriminate].
    simpl in H1, H2. apply (inj Some) in H1, H2. rewrite <- H2 in H1.
    apply String.app_inj in H1.
    assert (H1' : fid' ++ "/tasks/" ++ name' ++ "/" ++ Hashlib.md5_hexdigest s' ++ EmptyString
                  = fid ++ "/tasks/" ++ name ++ "/" ++ Hashlib.md5_hexdigest s ++ EmptyString).
    { rewrite !append_nil_r. now symmetry. }
    apply key_tail_inj in H1' as (-> & -> & Hh);
      [| now symmetry | now rewrite !md5_hexdigest_length].
    eauto 10.
Qed.


Lemma cache_keys_are_namespaced_witness :
  run_id = run_id /\ "total" = "total"
  /\ exists s s',
       input_str "total" [PTuple [PInt 1; PInt 2]] [] = Some s
       /\ input_str "total" [PList [PInt 1; PInt 2]] [] = Some s'
       /\ Hashlib.md5_hexdigest s = Hashlib.md5_hexdigest s'.
Proof.
  apply (cache_keys_are_namespaced run_id run_id "total" "total"
           [PTuple [PInt 1; PInt 2]] [PList [PInt 1; PInt 2]] [] []
           (default EmptyString
              (CacheManager._generate_cache_key run_id "total"
                 [PList [PInt 1; PInt 2]] []))).
  - reflexivity.
  - left. split; vm_compute; reflexivity.
Defined.

(** ** Which arguments a key can be derived from *)

Section Encodable.

(** Induction on values, with the items of lists, tuples and dictionaries. *)
Lemma pyval_nested_ind (P : pyval -> Prop) :
  P PNone -> (forall b, P (PBool b)) -> (forall z, P (PInt z)) ->
  (forall s, P (PStr s)) ->
  (forall l, Forall P l -> P (PList l)) ->
  (forall l, Forall P l -> P (PTuple l)) ->
  (forall d, Forall (fun kv => P (snd kv)) d -> P (PDict d)) ->
  (forall s, P (PObj s)) ->
  forall v, P v.
Proof.
  intros HN HB HI HS HL HT HD HO.
  fix IH 1. intros [| b | z | s | l | l | d | s].
  - exact HN.
  - apply HB.
  - apply HI.
  - apply HS.
  - apply HL. induction l as [| x l IHl]; constructor; [apply IH | exact IHl].
  - apply HT. induction l as [| x l IHl]; constructor; [apply IH | exact IHl].
  - apply HD. induction d as [| [k x] d IHd]; constructor; [apply IH | exact IHd].
  - apply HO.
Qed.

Lemma forallb_false_Exists {A} (f : A -> bool) (l : list A) :
  forallb f l = false <-> Exists (fun x => f x = false) l.
Proof.
  induction l as [| x l IH]; simpl.
  - split; [discriminate | intros H; inversion H].
  - rewrite andb_false_iff, IH, Exists_cons. reflexivity.
Qed.

Lemma dumps_None_iff (v : pyval) : dumps v = None <-> encodable v = false.
Proof.
  induction v as [| b | z | s | l IH | l IH | d IH | s] using pyval_nested_ind;
    simpl; try (split; discriminate).
  - destruct (int_fits_64 z); split; congruence.
  - rewrite fmap_None, mapM_None, forallb_false_Exists.
    rewrite !Exists_exists. split; intros (x & Hin & Hx); exists x; split; auto;
      rewrite Forall_forall in IH; now apply IH.
  - rewrite fmap_None, mapM_None, forallb_false_Exists.
    rewrite !Exists_exists. split; intros (x & Hin & Hx); exists x; split; auto;
      rewrite Forall_forall in IH; now apply IH.
  - rewrite fmap_None, mapM_None, forallb_false_Exists.
    rewrite !Exists_exists. rewrite Forall_forall in IH.
    split; intros (x & Hin & Hx); exists x; split; auto.
    + apply IH; [assumption |]. now destruct (dumps (snd x)).
    + apply IH in Hx; [| assumption]. now rewrite Hx.
Qed.

End Encodable.

(** X2. Deriving a key fails whenever some argument holds, at any depth,
    an integer outside the 64-bit range orjson encodes: neither manager
    has a key for such a call. *)
Theorem key_derivation_fails_on_big_int
    (fid name : string) (args : list pyval) (kwargs : list (string * pyval)) :
  forallb encodable args
  && forallb (fun kv => encodable (snd kv)) kwargs = false ->
  CacheManager._generate_cache_key fid name args kwargs = None
  /\ InMemoryCacheManager._generate_cache_key fid name args kwargs = None.
Proof.
  intros Hbig.
  assert (H : input_str name args kwargs = None).
  { unfold input_str. apply dumps_None_iff. simpl.
    now rewrite !andb_true_r. }
  rewrite s3_key_unfold, memory_key_unfold, H. split; reflexivity.
Qed.

Lemma key_derivation_fails_on_big_int_witness :
  CacheManager._generate_cache_key run_id "fetch"
    [PList [PInt 1; PDict [("n", PInt (2 ^ 64))]]] [("x", PInt 0)] = None
  /\ InMemoryCacheManager._generate_cache_key run_id "fetch"
       [PList [PInt 1; PDict [("n", PInt (2 ^ 64))]]] [("x", PInt 0)] = None.
Proof.
  apply (key_derivation_fails_on_big_int run_id "fetch"
           [PList [PInt 1; PDict [("n", PInt (2 ^ 64))]]] [("x", PInt 0)]).
  reflexivity.
Defined.

(** ** The cache managers *)

Section CacheManagers.

Lemma clash_None_iff params kwargs :
  clash params kwargs = None <-> Forall (fun kv => fst kv ∉ params) kwargs.
Proof.
  split; [| apply no_clash].
  unfold clash. induction kwargs as [| [k v] kw IH]; simpl; [constructor |].
  destruct (existsb (String.eqb k) params) eqn:Hex; [discriminate |].
  intros H. constructor; [| now apply IH].
  simpl. intros Hin. apply list_elem_of_In in Hin.
  assert (existsb (String.eqb k) params = true); [| congruence].
  apply existsb_exists. exists k. split; [assumption | apply String.eqb_refl].
Qed.

Lemma clash_perm params kw1 kw2 :
  kw1 ≡ₚ kw2 -> clash params kw1 = None -> clash params kw2 = None.
Proof. rewrite !clash_None_iff. now intros ->. Qed.

Lemma clash_get_of_store kwargs :
  clash store_params kwargs = None -> clash get_params kwargs = None.
Proof.
  rewrite !clash_None_iff. intros H. eapply Forall_impl; [exact H |].
  intros kv Hkv Hin. apply Hkv. unfold store_params. unfold get_params in Hin.
  rewrite !elem_of_cons in Hin. rewrite !elem_of_cons. tauto.
Qed.

Lemma memory_store_result_inv fid name v args kwargs
    (c c' : gmap string CacheResult.t) k :
  InMemoryCacheManager.store_result fid name v args kwargs c = (Return k, c') ->
  clash store_params kwargs = None
  /\ InMemoryCacheManager._generate_cache_key fid name args kwargs = Some k
  /\ c' = <[k := CacheResult.Build fid name v k]> c.
Proof.
  unfold InMemoryCacheManager.store_result, bind_call,
    InMemoryCacheManager.derive_key. unfold_monad.
  destruct (clash store_params kwargs); [discriminate |].
  destruct (InMemoryCacheManager._generate_cache_key fid name args kwargs);
    [| discriminate].
  intros [= <- <-]. auto.
Qed.

Lemma memory_key_perm fid name args (kw1 kw2 : list (string * pyval)) :
  NoDup (map fst kw1) -> kw1 ≡ₚ kw2 ->
  InMemoryCacheManager._generate_cache_key fid name args kw1
  = InMemoryCacheManager._generate_cache_key fid name args kw2.
Proof.
  intros Hnd Hp. rewrite !memory_key_unfold.
  now rewrite (input_str_perm name args kw1 kw2 Hnd Hp).
Qed.

Lemma s3_key_perm fid name args (kw1 kw2 : list (string * pyval)) :
  NoDup (map fst kw1) -> kw1 ≡ₚ kw2 ->
  CacheManager._generate_cache_key fid name args kw1
  = CacheManager._generate_cache_key fid name args kw2.
Proof.
  intros Hnd Hp. rewrite !s3_key_unfold.
  now rewrite (input_str_perm name args kw1 kw2 Hnd Hp).
Qed.

Lemma json_roundtrip_idempotent (v v' : pyval) :
  json_roundtrip v = Some v' -> json_roundtrip v' = Some v'.
Proof.
  revert v'.
  induction v as [| b | z | s | l IH | l IH | d IH | s] using pyval_nested_ind;
    intros v' H; simpl in H; try (injection H as <-; reflexivity);
    try discriminate.
  - apply fmap_Some in H as (l' & Hl & ->). simpl.
    enough (mapM json_roundtrip l' = Some l') as -> by reflexivity.
    revert l' Hl. induction IH as [| x l Hx _ IHl]; intros l' Hl; simpl in Hl.
    + now injection Hl as <-.
    + destruct (json_roundtrip x) as [x' |] eqn:Ex; simpl in Hl; [| discriminate].
      destruct (mapM json_roundtrip l) as [l0 |]; simpl in Hl; [| discriminate].
      injection Hl as <-. simpl. rewrite (Hx _ eq_refl). simpl.
      now rewrite (IHl _ eq_refl).
  - apply fmap_Some in H as (l' & Hl & ->). simpl.
    enough (mapM json_roundtrip l' = Some l') as -> by reflexivity.
    revert l' Hl. induction IH as [| x l Hx _ IHl]; intros l' Hl; simpl in Hl.
    + now injection Hl as <-.
    + destruct (json_roundtrip x) as [x' |] eqn:Ex; simpl in Hl; [| discriminate].
      destruct (mapM json_roundtrip l) as [l0 |]; simpl in Hl; [| discriminate].
      injection Hl as <-. simpl. rewrite (Hx _ eq_refl). simpl.
      now rewrite (IHl _ eq_refl).
  - apply fmap_Some in H as (d' & Hd & ->). simpl.
    enough (mapM (fun kv => v' ← json_roundtrip (snd kv); Some (fst kv, v')) d'
            = Some d') as -> by reflexivity.
    revert d' Hd. induction IH as [| [k x] d Hx _ IHd]; intros d' Hd; simpl in Hd.
    + now injection Hd as <-.
    + destruct (json_roundtrip x) as [x' |] eqn:Ex; simpl in Hd; [| discriminate].
      destruct (mapM _ d) as [d0 |]; simpl in Hd; [| discriminate].
      injection Hd as <-. simpl. simpl in Hx. rewrite (Hx _ Ex). simpl.
      now rewrite (IHd _ eq_refl).
Qed.

Lemma s3_store_result_inv E bucket fid name v args kwargs (s s' : S3) k :
  CacheManager.store_result E bucket fid name v args kwargs s = (Return k, s') ->
  (k = EmptyString /\ objects s' = objects s)
  \/ (exists key v',
        CacheManager._generate_cache_key fid name args kwargs = Some key
        /\ json_roundtrip v = Some v'
        /\ k = "s3://" ++ bucket ++ "/" ++ key
        /\ objects s'
           = <[(bucket, key) := ValidEntry (CacheResult.Build fid name v' key)]>
               (objects s)).
Proof.
  unfold CacheManager.store_result, bind_call, CacheManager.derive_key,
    CacheManager.create_client, CacheManager.put_object,
    CacheManager.model_dump_json.
  unfold_monad.
  destruct (clash store_params kwargs); [discriminate |].
  destruct (CacheManager._generate_cache_key fid name args kwargs) as [key |];
    [| discriminate].
  destruct (create_client_fault E _); simpl; [intros [= <- <-]; now left |].
  destruct (json_roundtrip v) as [v' |]; simpl; [| intros [= <- <-]; now left].
  destruct (put_object_fault E _ _ _); simpl; intros [= <- <-]; [now left |].
  right. exists key, v'. auto.
Qed.

Lemma s3_store_result_clash E bucket fid name v args kwargs (s s' : S3) k :
  CacheManager.store_result E bucket fid name v args kwargs s = (Return k, s') ->
  clash store_params kwargs = None.
Proof.
  unfold CacheManager.store_result, bind_call. unfold_monad.
  now destruct (clash store_params kwargs).
Qed.

End CacheManagers.

(** X3. The in-memory manager gives back what it stored: after
    [store_result] returned a key, [get_cached_result] for the same run,
    task and positional arguments, and the same keyword mapping in any
    order, is a hit on an entry holding the stored result under that key. *)
Theorem memory_store_then_get
    (fid name : string) (v : pyval) (args : list pyval)
    (kw1 kw2 : list (string * pyval)) (c c' : gmap string CacheResult.t)
    (k : string) :
  NoDup (map fst kw1) -> NoDup (map fst kw2) ->
  (list_to_map kw1 : gmap string pyval) = list_to_map kw2 ->
  InMemoryCacheManager.store_result fid name v args kw1 c = (Return k, c') ->
  InMemoryCacheManager.get_cached_result fid name args kw2 c'
  = (Return (Some (CacheResult.Build fid name v k)), c').
Proof.
  intros Hnd1 Hnd2 Hmap Hst.
  assert (Hp : kw1 ≡ₚ kw2) by now apply (list_to_map_inj (M := gmap string)).
  apply memory_store_result_inv in Hst as (Hcl & Hkey & ->).
  rewrite (memory_key_perm _ _ _ _ _ Hnd1 Hp) in Hkey.
  rewrite (memory_get_cached_result_eq _ _ _ _ k);
    [| apply (clash_perm _ _ _ Hp), clash_get_of_store, Hcl | exact Hkey].
  now rewrite lookup_insert_eq.
Qed.

Lemma memory_store_then_get_witness :
  let kw1 := [("width", PInt 640); ("height", PInt 480)] in
  let kw2 := [("height", PInt 480); ("width", PInt 640)] in
  let r := InMemoryCacheManager.store_result run_id "resize" (PStr "out.png")
             [PStr "in.png"] kw1 ∅ in
  InMemoryCacheManager.get_cached_result run_id "resize" [PStr "in.png"] kw2 (snd r)
  = (Return (Some (CacheResult.Build run_id "resize" (PStr "out.png")
                     (default EmptyString
                        (InMemoryCacheManager._generate_cache_key run_id "resize"
                           [PStr "in.png"] kw1)))),
     snd r).
Proof.
  intros kw1 kw2 r.
  apply (memory_store_then_get run_id "resize" (PStr "out.png") [PStr "in.png"]
           kw1 kw2 ∅).
  - apply (bool_decide_unpack _). vm_compute. exact I.
  - apply (bool_decide_unpack _). vm_compute. exact I.
  - vm_compute. reflexivity.
  - vm_compute. reflexivity.
Defined.

Lemma s3_get_keeps_objects E bucket fid name args kwargs (s : S3) :
  objects (snd (CacheManager.get_cached_result E bucket fid name args kwargs s))
  = objects s.
Proof.
  unfold CacheManager.get_cached_result, bind_call, CacheManager.derive_key,
    CacheManager.create_client, CacheManager.get_object,
    CacheManager.model_validate_json.
  unfold_monad.
  destruct (clash get_params kwargs); [reflexivity |].
  destruct (CacheManager._generate_cache_key fid name args kwargs) as [key |];
    [| reflexivity].
  destruct (create_client_fault E _); [reflexivity |]. simpl.
  destruct (get_object_fault E _ _ _); [reflexivity |].
  destruct (objects s !! (bucket, key)) as [[e | raw] |]; reflexivity.
Qed.

Lemma memory_get_keeps_cache fid name args kwargs
    (c : gmap string CacheResult.t) :
  snd (InMemoryCacheManager.get_cached_result fid name args kwargs c) = c.
Proof.
  unfold InMemoryCacheManager.get_cached_result, bind_call,
    InMemoryCacheManager.derive_key.
  unfold_monad.
  destruct (clash get_params kwargs); [reflexivity |].
  destruct (InMemoryCacheManager._generate_cache_key fid name args kwargs);
    reflexivity.
Qed.

(** X4. Reading the cache never writes: whatever [get_cached_result]
    returns or raises, and whatever the bucket does, the objects of the
    bucket, and the in-memory cache, are what they were. *)
Theorem cache_reads_never_write
    (E : Faults) (bucket fid name : string) (args : list pyval)
    (kwargs : list (string * pyval)) (s : S3) (c : gmap string CacheResult.t) :
  objects (snd (CacheManager.get_cached_result E bucket fid name args kwargs s))
  = objects s
  /\ snd (InMemoryCacheManager.get_cached_result fid name args kwargs c) = c.
Proof.
  split; [apply s3_get_keeps_objects | apply memory_get_keeps_cache].
Qed.



(** X6. The durable manager gives back what it stored, as JSON reads it:
    when no request to the bucket fails and [store_result] returned a key
    that is not empty, [get_cached_result] for the same run, task and
    arguments (the keyword mapping in any order) is a hit; the entry holds
    the raw key and the result after one trip through JSON, which a second
    trip leaves as it is. *)
Theorem s3_store_then_get
    (E : Faults) (bucket fid name : string) (v : pyval) (args : list pyval)
    (kw1 kw2 : list (string * pyval)) (s s' : S3) (k : string) :
  s3_reliable E ->
  NoDup (map fst kw1) -> NoDup (map fst kw2) ->
  (list_to_map kw1 : gmap string pyval) = list_to_map kw2 ->
  CacheManager.store_result E bucket fid name v args kw1 s = (Return k, s') ->
  k <> EmptyString ->
  exists key v',
    k = "s3://" ++ bucket ++ "/" ++ key
    /\ json_roundtrip v = Some v'
    /\ json_roundtrip v' = Some v'
    /\ fst (CacheManager.get_cached_result E bucket fid name args kw2 s')
       = Return (Some (CacheResult.Build fid name v' key)).
Proof.
  intros Hrel Hnd1 Hnd2 Hmap Hst Hk.
  assert (Hp : kw1 ≡ₚ kw2) by now apply (list_to_map_inj (M := gmap string)).
  pose proof (s3_store_result_clash _ _ _ _ _ _ _ _ _ _ Hst) as Hcl.
  apply s3_store_result_inv in Hst as [[-> _] | (key & v' & Hkey & Hv & -> & Hobj)];
    [congruence |].
  exists key, v'. repeat split; [assumption | |].
  - eapply json_roundtrip_idempotent, Hv.
  - rewrite (s3_key_perm _ _ _ _ _ Hnd1 Hp) in Hkey.
    rewrite (s3_get_cached_result_eq E bucket fid name args kw2 key s' Hrel);
      [| apply (clash_perm _ _ _ Hp), clash_get_of_store, Hcl | exact Hkey].
    simpl. unfold s3_entry. now rewrite Hobj, lookup_insert_eq.
Qed.

Lemma s3_store_then_get_witness :
  let kw1 := [("width", PInt 640); ("height", PInt 480)] in
  let kw2 := [("height", PInt 480); ("width", PInt 640)] in
  let r := CacheManager.store_result no_faults "flow-cache-bucket" run_id "resize"
             (PTuple [PInt 1; PInt 2]) [PStr "in.png"] kw1 (MkS3 ∅ []) in
  exists key v',
    default EmptyString (match fst r with Return k => Some k | Raise _ => None end)
      = "s3://" ++ "flow-cache-bucket" ++ "/" ++ key
    /\ json_roundtrip (PTuple [PInt 1; PInt 2]) = Some v'
    /\ json_roundtrip v' = Some v'
    /\ fst (CacheManager.get_cached_result no_faults "flow-cache-bucket" run_id
              "resize" [PStr "in.png"] kw2 (snd r))
       = Return (Some (CacheResult.Build run_id "resize" v' key)).
Proof.
  intros kw1 kw2 r.
  apply (s3_store_then_get no_faults "flow-cache-bucket" run_id "resize"
           (PTuple [PInt 1; PInt 2]) [PStr "in.png"] kw1 kw2 (MkS3 ∅ [])).
  - repeat split.
  - apply (bool_decide_unpack _). vm_compute. exact I.
  - apply (bool_decide_unpack _). vm_compute. exact I.
  - vm_compute. reflexivity.
  - vm_compute. reflexivity.
  - vm_compute. discriminate.
Defined.

(** ** The log manager *)

Lemma emit_frame E subject ev w o w' :
  LogManager.emit E subject ev w = (o, w') ->
  log_frame w w'
  /\ (emitted w' = (emitted w ++ [ev])%list /\ o = Return tt
      \/ emitted w' = emitted w)
  /\ (forall e, o = Raise e -> emit_fault E (length (emitted w)) ev = Some e).
Proof.
  unfold LogManager.emit, LogManager.build, LogManager._send_remote_log,
    LogManager.publish, LogManager.logger_info, log_frame.
  unfold_monad.
  destruct (emit_fault _ _ _) as [e0 |];
    [intros [= <- <-]; repeat split; auto; now intros e [= ->] |].
  destruct (is_remote _).
  - destruct (publish_fault _ _ _ _); intros [= <- <-]; simpl;
      repeat split; auto; discriminate.
  - intros [= <- <-]; simpl; repeat split; auto; discriminate.
Qed.


(** ** Invariants of the runner *)

Ltac frame_step :=
  lazymatch goal with
  | |- preserves _ (_ ≫= _) => apply preserves_bind; [tc_solve | | intros ?]
  | |- preserves _ (try_except _ _) =>
      apply preserves_try_except; [tc_solve | | intros ?]
  | |- preserves _ (try_finally _ _) =>
      apply preserves_try_finally; [tc_solve | |]
  | |- preserves _ (match ?x with _ => _ end) => destruct x
  | |- preserves _ (mret _) => apply preserves_ret; tc_solve
  | |- preserves _ (raise _) => apply preserves_raise; tc_solve
  | |- preserves _ (gets _) => apply preserves_gets; tc_solve
  | |- _ => solve [auto]
  end.

Section Frames.
Context (R : relation World) `{!PreOrder R} (E : Faults).

(** A relation every step of [run_task] keeps is kept by [run_task]. *)
Lemma run_task_preserves name f args kwargs :
  (forall fid, preserves R (FlowRunner.cache_get E fid name args kwargs)) ->
  (forall fid v, preserves R (FlowRunner.cache_store E fid name v args kwargs)) ->
  (forall subject ev, preserves R (LogManager.emit E subject ev)) ->
  preserves R (FlowRunner.call_task name f args kwargs) ->
  (forall st, preserves R (on_self (set_task_status name st))) ->
  preserves R (on_self (set_failed true)) ->
  preserves R (FlowRunner.run_task E name f args kwargs).
Proof.
  intros. unfold FlowRunner.run_task, LogManager.log_task_status.
  repeat frame_step.
Qed.

End Frames.

#[local] Instance others_kept_preorder name : PreOrder (others_kept name).
Proof.
  split.
  - now intros w n Hn.
  - intros w1 w2 w3 H12 H23 n Hn. now rewrite H23, H12.
Qed.

Lemma run_task_others_kept E name f args kwargs :
  preserves (others_kept name) (FlowRunner.run_task E name f args kwargs).
Proof.
  apply run_task_preserves; [tc_solve | ..].
  - intros fid w o w' H n _.
    apply cache_get_frame in H as (_ & _ & _ & Hts & _). now rewrite Hts.
  - intros fid v w o w' H n _.
    apply cache_store_frame in H as (_ & _ & _ & Hts & _). now rewrite Hts.
  - intros subject ev w o w' H n _.
    apply emit_frame in H as ((Hs & _) & _). now rewrite Hs.
  - intros w o w' H n _. now injection H as <- <-.
  - intros st. apply preserves_on_self. intros w n Hn. simpl.
    now rewrite lookup_insert_ne.
  - apply preserves_on_self. now intros w n Hn.
Qed.

Lemma run_task_own_status E name f args kwargs w o w' :
  failed (self w) = false ->
  FlowRunner.run_task E name f args kwargs w = (o, w') ->
  tasks_status (self w') !! name = Some (terminal_status o)
  /\ failed (self w') = match o with Return _ => false | Raise _ => true end.
Proof.
  intros Hf. unfold FlowRunner.run_task, LogManager.log_task_status.
  unfold_monad. rewrite Hf. simpl.
  destruct (FlowRunner.cache_get _ _ _ _ _ _) as [[[c |] | e] w2] eqn:Hget;
    apply cache_get_frame in Hget as (_ & _ & Hfl & _ & _); simpl in Hfl;
    [| unfold FlowRunner.call_task; destruct (f args kwargs) as [v | e];
       [destruct (FlowRunner.cache_store _ _ _ _ _ _ _) as [[key | e] w3] eqn:Hst;
        apply cache_store_frame in Hst as (_ & _ & Hfl3 & _ & _);
        simpl in Hfl3 |] |];
    repeat
      match goal with
      | |- context [LogManager.emit E ?s ?ev ?w0] =>
          let H := fresh "Hem" in
          let Hs := fresh "Hs" in
          destruct (LogManager.emit E s ev w0) as [[[] | ?] ?] eqn:H;
          apply emit_frame in H as ((Hs & _) & _); simpl in Hs
      end;
    intros [= <- <-];
    repeat match goal with H : self _ = _ |- _ => rewrite H; clear H end;
    simpl; rewrite lookup_insert_eq, ?Hfl3, ?Hfl, ?Hf; auto.
Qed.

(** X8. What [run_task] records, whatever the bucket and the emitter do:
    called with the fuse unset it leaves the status of every other task as
    it was, never leaves its own task [RUNNING], records [SUCCESS] exactly
    when it returns and [FAILED] exactly when it raises, and sets the fuse
    exactly when it raises. *)
Theorem run_task_status_report
    (E : Faults) (task_name : string) (task_func : Callable)
    (args : list pyval) (kwargs : list (string * pyval)) (w : World) :
  failed (self w) = false ->
  let '(o, w') := FlowRunner.run_task E task_name task_func args kwargs w in
  (forall n, n <> task_name ->
             tasks_status (self w') !! n = tasks_status (self w) !! n)
  /\ tasks_status (self w') !! task_name = Some (terminal_status o)
  /\ failed (self w') = match o with Return _ => false | Raise _ => true end.
Proof.
  intros Hf.
  destruct (FlowRunner.run_task E task_name task_func args kwargs w)
    as [o w'] eqn:Hrun.
  split; [exact (run_task_others_kept _ _ _ _ _ _ _ _ Hrun) |].
  exact (run_task_own_status _ _ _ _ _ _ _ _ Hf Hrun).
Qed.

Lemma run_task_status_report_witness :
  let '(o, w') :=
    FlowRunner.run_task logger_broken "fetch" fetch [PStr "x"] [] (fresh_world false) in
  (forall n, n <> "fetch" ->
             tasks_status (self w') !! n
             = tasks_status (self (fresh_world false)) !! n)
  /\ tasks_status (self w') !! "fetch" = Some (terminal_status o)
  /\ failed (self w') = match o with Return _ => false | Raise _ => true end.
Proof.
  apply (run_task_status_report logger_broken "fetch" fetch [PStr "x"] []
           (fresh_world false)).
  reflexivity.
Defined.

Lemma run_body_when_failed E body w :
  failed (self w) = true -> snd (FlowRunner.run_body E body w) = w.
Proof.
  intros Hf. induction body as [v | e | name f args kwargs k IH]; simpl;
    [reflexivity | reflexivity |].
  rewrite run_task_when_failed by assumption. apply IH.
Qed.

Lemma cleaned_frame w :
  failed (self (cleaned w)) = failed (self w)
  /\ tasks_status (self (cleaned w)) = tasks_status (self w)
  /\ body_calls (cleaned w) = body_calls w
  /\ s3 (cleaned w) = s3 w
  /\ emitted (cleaned w) = emitted w
  /\ shut_down (executor (self (cleaned w))) = true.
Proof.
  unfold cleaned. simpl.
  destruct (String.eqb (cache_type (self w)) "memory"); [| now simpl].
  destruct (cache_manager (self w)); now simpl.
Qed.

Ltac flow_events_only :=
  first
    [ exists []; split; [now rewrite app_nil_r | constructor]
    | eexists; split; [reflexivity |];
      repeat (constructor;
              [eexists _, _; split; [reflexivity | discriminate] |]);
      constructor ].

(** X9. A runner whose fuse is set runs nothing: the body of a flow leaves
    the world as it was (each task it awaits raises at once), and
    [run_flow] on such a runner runs no task body, makes no request to the
    bucket, records no status, keeps the fuse set, and emits events of the
    flow only, none of them [SUCCESS]. *)
Theorem fused_flow_runs_nothing
    (E : Faults) (flow_func : flow_body) (w : World) :
  failed (self w) = true ->
  snd (FlowRunner.run_body E flow_func w) = w
  /\ let w' := snd (FlowRunner.run_flow E flow_func w) in
     failed (self w') = true
     /\ body_calls w' = body_calls w
     /\ s3 w' = s3 w
     /\ tasks_status (self w') = tasks_status (self w)
     /\ exists l, emitted w' = (emitted w ++ l)%list
                  /\ Forall (fun ev => exists fid st,
                               ev = FlowRunStatusEvent fid st /\ st <> SUCCESS) l.
Proof.
  intros Hf. split; [now apply run_body_when_failed |].
  unfold FlowRunner.run_flow, try_finally.
  match goal with
  | |- context [let '(o, s') := ?m w in _] => destruct (m w) as [o1 w1] eqn:E1
  end.
  rewrite cleanup_cleaned.
  generalize (cleaned_frame w1). generalize (cleaned w1).
  intros wc Hc. simpl. destruct Hc as (-> & -> & -> & -> & -> & _).
  revert E1. unfold LogManager.log_flow_status. unfold_monad.
  destruct (LogManager.emit E _ _ w) as [[[] | e1] w0] eqn:Hem1;
    apply emit_frame in Hem1 as ((Hs1 & Hs31 & Hbc1) & Hev1 & _).
  - assert (Hf1 : failed (self w0) = true) by now rewrite Hs1.
    pose proof (run_body_when_failed E flow_func w0 Hf1) as Hb.
    destruct (FlowRunner.run_body E flow_func w0) as [[v | e] wb];
      simpl in Hb; subst wb.
    + rewrite Hf1. simpl. intros [= <- <-].
      rewrite Hs1. repeat split; try assumption.
      destruct Hev1 as [[-> _] | ->]; flow_events_only.
    + simpl.
      destruct (LogManager.emit E _ _ _) as [[[] | e2] w2] eqn:Hem2;
        apply emit_frame in Hem2 as ((Hs2 & Hs32 & Hbc2) & Hev2 & _);
        simpl in Hs2, Hs32, Hbc2, Hev2; intros [= <- <-];
        rewrite Hs2, Hs32, Hbc2; simpl; rewrite Hs1;
        (repeat split; try assumption);
        destruct Hev1 as [[Hev1 _] | Hev1], Hev2 as [[Hev2 _] | Hev2];
        rewrite Hev2, Hev1, <- ?app_assoc;
        flow_events_only.
  - simpl.
    destruct (LogManager.emit E _ _ _) as [[[] | e2] w2] eqn:Hem2;
      apply emit_frame in Hem2 as ((Hs2 & Hs32 & Hbc2) & Hev2 & _);
      simpl in Hs2, Hs32, Hbc2, Hev2; intros [= <- <-];
      rewrite Hs2, Hs32, Hbc2; simpl; rewrite ?Hs1;
      (repeat split; try assumption);
      destruct Hev1 as [[Hev1 _] | Hev1], Hev2 as [[Hev2 _] | Hev2];
      rewrite Hev2, ?Hev1, <- ?app_assoc;
      flow_events_only.
Qed.

Lemma fused_flow_runs_nothing_witness :
  snd (FlowRunner.run_body no_faults demo_flow_ok fused_world) = fused_world
  /\ let w' := snd (FlowRunner.run_flow no_faults demo_flow_ok fused_world) in
     failed (self w') = true
     /\ body_calls w' = body_calls fused_world
     /\ s3 w' = s3 fused_world
     /\ tasks_status (self w') = tasks_status (self fused_world)
     /\ exists l, emitted w' = (emitted fused_world ++ l)%list
                  /\ Forall (fun ev => exists fid st,
                               ev = FlowRunStatusEvent fid st /\ st <> SUCCESS) l.
Proof. apply (fused_flow_runs_nothing no_faults demo_flow_ok fused_world). reflexivity. Defined.

(** X10. When the body of a flow returns, [run_flow] returns the same
    value; the flow's [SUCCESS] event is the last event when the fuse is
    unset, and when the body went on after a task had failed no terminal
    event of the flow is emitted at all and the fuse stays set (the
    emitter is taken to return normally). *)
Theorem run_flow_returns_body_value
    (E : Faults) (flow_func : flow_body) (w wb : World) (v : pyval) :
  emitter_total E ->
  FlowRunner.run_body E flow_func (started w) = (Return v, wb) ->
  exists w',
    FlowRunner.run_flow E flow_func w = (Return v, w')
    /\ failed (self w') = failed (self wb)
    /\ emitted w'
       = (emitted wb
            ++ (if failed (self wb) then []
                else [FlowRunStatusEvent (flow_run_id (self w)) SUCCESS]))%list.
Proof.
  intros Ht Hb. rewrite (run_flow_unfold E Ht), Hb.
  eexists. split; [reflexivity |].
  match goal with |- context [cleaned ?x] =>
    destruct (cleaned_frame x) as (-> & _ & _ & _ & -> & _) end.
  destruct (failed (self wb)) eqn:Hf; simpl; rewrite ?Hf, ?app_nil_r; auto.
Qed.

Lemma run_flow_returns_body_value_witness :
  let w := fresh_world false in
  let wb := snd (FlowRunner.run_body no_faults demo_flow_swallow (started w)) in
  exists w',
    FlowRunner.run_flow no_faults demo_flow_swallow w = (Return PNone, w')
    /\ failed (self w') = failed (self wb)
    /\ emitted w'
       = (emitted wb
            ++ (if failed (self wb) then []
                else [FlowRunStatusEvent (flow_run_id (self w)) SUCCESS]))%list.
Proof.
  intros w wb.
  apply (run_flow_returns_body_value no_faults demo_flow_swallow w wb PNone).
  - split; reflexivity.
  - vm_compute. reflexivity.
Defined.




(** ** The in-memory cache during a run *)

Section MemoryCache.
Context (E : Faults).





End MemoryCache.



(** ** Dictionaries kept in insertion order *)

Section Dicts.
Import Decorators.
Context {A : Type}.

Lemma lookup_item_nil (n : string) : lookup_item n ([] : list (string * A)) = None.
Proof. reflexivity. Qed.

Lemma lookup_item_cons (n k : string) (v : A) d :
  lookup_item n ((k, v) :: d)
  = if String.eqb k n then Some v else lookup_item n d.
Proof. unfold lookup_item. simpl. now destruct (String.eqb k n). Qed.

Lemma lookup_item_app (n : string) (d1 d2 : list (string * A)) :
  lookup_item n (d1 ++ d2)
  = match lookup_item n d1 with
    | Some v => Some v
    | None => lookup_item n d2
    end.
Proof.
  induction d1 as [| [k v] d1 IH]; [reflexivity |].
  rewrite <- app_comm_cons.
  rewrite !lookup_item_cons. now destruct (String.eqb k n).
Qed.

Lemma lookup_item_update (n k : string) (v : A) d :
  lookup_item n
    (map (fun kv => if String.eqb (fst kv) k then (k, v) else kv) d)
  = if String.eqb n k
    then match lookup_item k d with Some _ => Some v | None => None end
    else lookup_item n d.
Proof.
  induction d as [| [k0 v0] d IH]; simpl map.
  - rewrite !lookup_item_nil. now destruct (String.eqb n k).
  - destruct (String.eqb k0 k) eqn:Hk0.
    + apply String.eqb_eq in Hk0 as ->. rewrite !lookup_item_cons.
      rewrite String.eqb_refl, (String.eqb_sym k n).
      destruct (String.eqb n k) eqn:Hn; [reflexivity |].
      now rewrite IH, ?Hn.
    + rewrite !lookup_item_cons, IH, Hk0.
      destruct (String.eqb n k) eqn:Hn.
      * apply String.eqb_eq in Hn as ->. now rewrite Hk0.
      * reflexivity.
Qed.

Lemma lookup_dict_set (n k : string) (v : A) d :
  lookup_item n (dict_set k v d)
  = if String.eqb n k then Some v else lookup_item n d.
Proof.
  unfold dict_set. case_bool_decide as Hk.
  - rewrite lookup_item_app, lookup_item_cons, lookup_item_nil.
    rewrite (String.eqb_sym k n).
    destruct (String.eqb n k) eqn:Hn.
    + apply String.eqb_eq in Hn as ->. now rewrite Hk.
    + now destruct (lookup_item n d).
  - rewrite lookup_item_update.
    destruct (String.eqb n k); [| reflexivity].
    now destruct (lookup_item k d).
Qed.


End Dicts.

(** X13. [TaskRegistry]: after [register_task(name, func)], [get_task]
    gives [func] for [name] (also when the name was registered before:
    the last registration wins) and what it gave before for every other
    name; the decorator [task] registers the function in this way. *)
Theorem task_registry_get_after_register
    (name n : string) (func : Callable) (_tasks : list (string * Callable)) :
  TaskRegistry.get_task n (TaskRegistry.register_task name func _tasks)
  = (if String.eqb n name then Some func else TaskRegistry.get_task n _tasks)
  /\ TaskRegistry.get_task n (Wrapping.task name func _tasks)
     = (if String.eqb n name then Some func else TaskRegistry.get_task n _tasks).
Proof.
  unfold Wrapping.task, TaskRegistry.get_task, TaskRegistry.register_task.
  split; exact (lookup_dict_set n name func _tasks).
Qed.

(** ** The decorators *)

(** X14. The decorator [flow] registers at most one flow per module: it
    touches nothing but [_flow_registry], never changes or removes a
    registration, registers the function under the module's name when the
    module has no flow yet, and otherwise raises [FlowError] naming the
    flow that is there and changes nothing.  Once it has succeeded, every
    later use in the same module raises. *)
Theorem flow_registers_one_flow_per_module
    (caller_name : option string) (func_name : string) (g : Globals) :
  let module_name := default "__main__" caller_name in
  let '(o, g') := Wrapping.flow caller_name func_name g in
  (forall m f, Decorators.lookup_item m (_flow_registry g) = Some f ->
               Decorators.lookup_item m (_flow_registry g') = Some f)
  /\ _active_flows g' = _active_flows g
  /\ _flow_runner g' = _flow_runner g
  /\ match o with
     | Return _ =>
         Decorators.lookup_item module_name (_flow_registry g) = None
         /\ Decorators.lookup_item module_name (_flow_registry g') = Some func_name
         /\ forall func_name2,
              Wrapping.flow caller_name func_name2 g'
              = (Raise (FlowError ("Only one @flow is allowed per file."
                          ++ " Found existing flow: " ++ func_name)), g')
     | Raise e =>
         g' = g
         /\ exists existing_flow,
              Decorators.lookup_item module_name (_flow_registry g)
              = Some existing_flow
              /\ e = FlowError ("Only one @flow is allowed per file."
                       ++ " Found existing flow: " ++ existing_flow)
     end.
Proof.
  unfold Wrapping.flow. simpl.
  destruct (Decorators.lookup_item (default "__main__" caller_name)
              (_flow_registry g)) as [existing |] eqn:Hl.
  - repeat split; eauto.
  - assert (Hnew : Decorators.lookup_item (default "__main__" caller_name)
                     (_flow_registry g
                        ++ [(default "__main__" caller_name, func_name)])
                   = Some func_name).
    { rewrite lookup_item_app, Hl, lookup_item_cons.
      now rewrite String.eqb_refl. }
    simpl. repeat split; try assumption.
    + intros m f Hm. now rewrite lookup_item_app, Hm.
    + intros func_name2. now rewrite Hnew.
Qed.

Lemma init_flow_run_id fid name n bucket caching env nats :
  flow_run_id (FlowRunner.__init__ fid name n bucket caching env nats) = fid.
Proof. now destruct caching. Qed.


Section TaskDispatch.
Import Decorators.

Lemma walk_stack_skip (below rest : list frame) :
  Forall (fun f => Forall (fun kv => carries_no_runner (snd kv)) (f_locals f)
                   /\ Forall (fun kv => carries_no_runner (snd kv)) (f_globals f))
         below ->
  walk_stack (below ++ rest) = walk_stack rest.
Proof.
  induction 1 as [| f below [Hl Hg] _ IH]; [reflexivity |].
  rewrite <- app_comm_cons. simpl.
  destruct (scan_items_no_runner (dict_merge (f_locals f) (f_globals f)))
    as [-> | ->]; [now apply dict_merge_values | exact IH | exact IH].
Qed.

Lemma scan_first_local (x : string) (r : FlowRunner)
    (rest globals : list (string * pyobj)) :
  lookup_item x globals = None ->
  scan_items (dict_merge ((x, IsFlowRunner r) :: rest) globals) = Some (Some r).
Proof. intros Hx. unfold dict_merge. simpl. now rewrite Hx. Qed.

Lemma wrapper_with_context func_name func callers args kwargs g r :
  match last (map snd (Decorators._active_flows g)) with
  | Some r0 => Some r0
  | None => walk_stack callers
  end = Some r ->
  wrapper func_name func callers args kwargs g
  = if shut_down (executor r)
    then (Raise (RuntimeError "cannot schedule new futures after shutdown"), g)
    else (Return (MkJob r func_name func args kwargs),
          MkRegistry (Decorators._active_flows g) (_tasks g)
            (submitted g ++ [MkJob r func_name func args kwargs])).
Proof. intros H. unfold wrapper. now rewrite H. Qed.

End TaskDispatch.

(** X16. While some flow is registered as active, the task wrapper hands
    the task to the runner registered last, whatever the stack it is called
    from holds: a job for that runner's pool, or [RuntimeError] and no job
    when the pool is shut down. *)
Theorem task_goes_to_latest_active_flow
    (func_name : string) (func : Callable) (callers : list Decorators.frame)
    (args : list pyval) (kwargs : list (string * pyval))
    (g : Decorators.Registry) (earlier : list (string * FlowRunner))
    (k : string) (r : FlowRunner) :
  Decorators._active_flows g = (earlier ++ [(k, r)])%list ->
  Decorators.wrapper func_name func callers args kwargs g
  = if shut_down (executor r)
    then (Raise (RuntimeError "cannot schedule new futures after shutdown"), g)
    else (Return (Decorators.MkJob r func_name func args kwargs),
          Decorators.MkRegistry (Decorators._active_flows g) (Decorators._tasks g)
            (Decorators.submitted g
               ++ [Decorators.MkJob r func_name func args kwargs])).
Proof.
  intros Hg. apply wrapper_with_context.
  rewrite Hg, map_app. change (map snd [(k, r)]) with [r].
  now rewrite last_snoc.
Qed.

Lemma task_goes_to_latest_active_flow_witness :
  let r1 := self (fresh_world false) in
  let r2 := self (fresh_world true) in
  let g := Decorators.MkRegistry [("a", r1); ("b", r2)] [("fetch", fetch)] [] in
  Decorators.wrapper "fetch" fetch plain_stack [PStr "x"] [] g
  = if shut_down (executor r2)
    then (Raise (RuntimeError "cannot schedule new futures after shutdown"), g)
    else (Return (Decorators.MkJob r2 "fetch" fetch [PStr "x"] []),
          Decorators.MkRegistry (Decorators._active_flows g) (Decorators._tasks g)
            (Decorators.submitted g
               ++ [Decorators.MkJob r2 "fetch" fetch [PStr "x"] []])).
Proof.
  intros r1 r2 g.
  apply (task_goes_to_latest_active_flow "fetch" fetch plain_stack [PStr "x"] []
           g [("a", r1)] "b" r2).
  reflexivity.
Defined.

(** X17. While no flow is registered as active, the task wrapper takes the
    runner from the stack: when the frames nearest to the call hold no
    runner, and the first local of the next frame is a runner whose name
    the frame's globals do not rebind (as [self] in the frame of
    [run_flow]), the task is handed to that runner, whatever the frames
    further out hold. *)
Theorem task_inside_flow_finds_enclosing_runner
    (func_name : string) (func : Callable)
    (below above : list Decorators.frame) (f : Decorators.frame)
    (x : string) (r : FlowRunner) (rest : list (string * Decorators.pyobj))
    (args : list pyval) (kwargs : list (string * pyval))
    (g : Decorators.Registry) :
  Decorators._active_flows g = [] ->
  Forall (fun f =>
            Forall (fun kv => carries_no_runner (snd kv)) (Decorators.f_locals f)
            /\ Forall (fun kv => carries_no_runner (snd kv)) (Decorators.f_globals f))
         below ->
  Decorators.f_locals f = (x, Decorators.IsFlowRunner r) :: rest ->
  Decorators.lookup_item x (Decorators.f_globals f) = None ->
  Decorators.wrapper func_name func (below ++ f :: above) args kwargs g
  = if shut_down (executor r)
    then (Raise (RuntimeError "cannot schedule new futures after shutdown"), g)
    else (Return (Decorators.MkJob r func_name func args kwargs),
          Decorators.MkRegistry (Decorators._active_flows g) (Decorators._tasks g)
            (Decorators.submitted g
               ++ [Decorators.MkJob r func_name func args kwargs])).
Proof.
  intros Hg Hbelow Hloc Hglob. apply wrapper_with_context.
  rewrite Hg. simpl. rewrite walk_stack_skip by assumption. simpl.
  now rewrite Hloc, scan_first_local.
Qed.

Lemma task_inside_flow_finds_enclosing_runner_witness :
  let r := self (fresh_world false) in
  let f := Decorators.MkFrame
             [("self", Decorators.IsFlowRunner r);
              ("flow_func", Decorators.HasFlowRunnerAttr (Some r))]
             [("logging", Decorators.OtherObject)] in
  Decorators.wrapper "fetch" fetch (plain_stack ++ f :: []) [PStr "x"] []
    idle_registry
  = if shut_down (executor r)
    then (Raise (RuntimeError "cannot schedule new futures after shutdown"),
          idle_registry)
    else (Return (Decorators.MkJob r "fetch" fetch [PStr "x"] []),
          Decorators.MkRegistry (Decorators._active_flows idle_registry)
            (Decorators._tasks idle_registry)
            (Decorators.submitted idle_registry
               ++ [Decorators.MkJob r "fetch" fetch [PStr "x"] []])).
Proof.
  intros r f.
  apply (task_inside_flow_finds_enclosing_runner "fetch" fetch plain_stack []
           f "self" r [("flow_func", Decorators.HasFlowRunnerAttr (Some r))]
           [PStr "x"] [] idle_registry).
  - reflexivity.
  - repeat constructor.
  - reflexivity.
  - reflexivity.
Defined.

(** ** What the cache managers raise *)


(** ** A corrupt entry of the bucket *)



(** ** A task of a decorated flow *)

Lemma flow_wrapper_returns uuid_parse uuid4 str_upper env func_name g co g' :
  Wrapping.wrapper uuid_parse uuid4 str_upper env func_name g = (Return co, g') ->
  shut_down (executor (co_runner co)) = false
  /\ _active_flows g'
     = dict_pop (flow_run_id (co_runner co))
         (dict_set (flow_run_id (co_runner co)) (co_runner co) (_active_flows g)).
Proof.
  unfold Wrapping.wrapper.
  destruct (uuid_parse _) as [fid |]; [| discriminate].
  cbv zeta. destruct (negb _); [discriminate |].
  intros [= <- <-]. simpl. rewrite init_flow_run_id.
  split; [| reflexivity].
  now destruct (String.eqb (lower (default "false" (ENABLE_S3_CACHING env)))
                  "true").
Qed.

Lemma dict_pop_set_nil {A} (k : string) (v : A) : dict_pop k (dict_set k v []) = [].
Proof.
  unfold dict_set, dict_pop. simpl. rewrite filter_cons. simpl.
  now destruct (decide (k ≠ k)).
Qed.

(** X20. The two decorators together: the flow wrapper, called while no
    flow is active, leaves [_active_flows] empty, so a task awaited by the
    flow is not found there; called from below the frame of [run_flow],
    whose first local [self] is the runner the wrapper created, the task
    wrapper hands the task to that runner, whose pool is open: one job is
    submitted and nothing is raised. *)
Theorem decorated_flow_dispatches_to_own_runner
    (uuid_parse : string -> option string) (uuid4 : string)
    (str_upper : string -> string) (env : Environ) (flow_func_name : string)
    (g g' : Globals) (co : Coroutine)
    (task_name : string) (task_func : Callable)
    (below above : list Decorators.frame)
    (rest runtime_globals : list (string * Decorators.pyobj))
    (args : list pyval) (kwargs : list (string * pyval))
    (tasks : list (string * Callable)) (jobs : list Decorators.Job) :
  _active_flows g = [] ->
  Wrapping.wrapper uuid_parse uuid4 str_upper env flow_func_name g
  = (Return co, g') ->
  Forall (fun f =>
            Forall (fun kv => carries_no_runner (snd kv)) (Decorators.f_locals f)
            /\ Forall (fun kv => carries_no_runner (snd kv)) (Decorators.f_globals f))
         below ->
  Decorators.lookup_item "self" runtime_globals = None ->
  let run_flow_frame :=
    Decorators.MkFrame (("self", Decorators.IsFlowRunner (co_runner co)) :: rest)
      runtime_globals in
  let job := Decorators.MkJob (co_runner co) task_name task_func args kwargs in
  _active_flows g' = []
  /\ Decorators.wrapper task_name task_func (below ++ run_flow_frame :: above)
       args kwargs (Decorators.MkRegistry (_active_flows g') tasks jobs)
     = (Return job, Decorators.MkRegistry [] tasks (jobs ++ [job])).
Proof.
  intros Hg Hw Hbelow Hself run_flow_frame job.
  apply flow_wrapper_returns in Hw as (Hopen & Hact).
  rewrite Hg, dict_pop_set_nil in Hact. rewrite Hact.
  split; [reflexivity |].
  rewrite (wrapper_with_context _ _ _ _ _ _ (co_runner co)).
  - now rewrite Hopen.
  - simpl. rewrite walk_stack_skip by assumption. simpl.
    now rewrite Hself.
Qed.

Lemma decorated_flow_dispatches_to_own_runner_witness :
  let uuid_parse := fun s : string => Some s in
  let env := MkEnviron (Some run_id) None None None None in
  let g := MkGlobals [("__main__", "math_pipeline")] [] [] in
  let r := Wrapping.wrapper uuid_parse run_id (fun s => s) env "math_pipeline" g in
  let co := MkCoroutine (FlowRunner.__init__ run_id "math_pipeline" 4 None false
                           None None) "math_pipeline" in
  let run_flow_frame :=
    Decorators.MkFrame [("self", Decorators.IsFlowRunner (co_runner co))] [] in
  let job := Decorators.MkJob (co_runner co) "fetch" fetch [PStr "x"] [] in
  _active_flows (snd r) = []
  /\ Decorators.wrapper "fetch" fetch (plain_stack ++ run_flow_frame :: [])
       [PStr "x"] [] (Decorators.MkRegistry (_active_flows (snd r)) [] [])
     = (Return job, Decorators.MkRegistry [] [] ([] ++ [job])).
Proof.
  intros uuid_parse env g r co run_flow_frame job.
  apply (decorated_flow_dispatches_to_own_runner uuid_parse run_id (fun s => s)
           env "math_pipeline" g (snd r) co "fetch" fetch plain_stack [] [] []
           [PStr "x"] [] [] []).
  - reflexivity.
  - reflexivity.
  - repeat constructor.
  - reflexivity.
Defined.

(** ** What [run_flow] raises when the body raises *)




